(** * create_directory_diagram.py: a shallow embedding

    The script is one linear pass of plotting calls against a single
    matplotlib figure, followed by a save to a fixed path and a
    confirmation line on standard output.

    Conventions of the embedding:
    - Python numbers are binary64 floating-point numbers ([float], the
      kernel's IEEE 754 doubles), with the arithmetic of Python's
      [float]: every operation rounds to nearest, ties to even, and
      overflows to an infinity without raising.  The integers the
      script writes are embedded as the doubles they convert to, which
      is exact below 2^53, where Python's [int] arithmetic, its true
      division and its mixed [int]/[float] arithmetic give the same
      results.  Integers beyond the range of a double, for which
      Python raises [OverflowError], are outside the type.
    - Font sizes, which the script only ever gives as integers, are [Z].
    - Python [str] values are [string]s holding the UTF-8 bytes of the
      text; the line-feed byte occurs in UTF-8 only as the newline, so
      splitting on it agrees with splitting the code points.
    - The module-level names live in a store of globals; the figure and
      its single axes object live in the process state and are mutated
      in place by the plotting calls.
    - The plotting library itself is not part of the repository: a
      figure is the record of the calls issued against it.  The
      library's own checks of its arguments (the spelling of a colour,
      for one) are not modelled: what is proved of a call is proved of
      every call the library lets return. *)

From Stdlib Require Import QArith Qabs ZArith String Ascii List Lia.
From Stdlib Require Import Floats.
From stdpp Require Import gmap strings.

Set Warnings "-inexact-float".

Open Scope string_scope.

(** ** Python strings and numbers *)

Module Py.

(** The one-character string ['\n']. *)
Definition LF : ascii := "010"%char.

Definition nl : string := String LF EmptyString.

(** [s.split(sep)] for a one-character separator: cut at every
    occurrence, keep empty pieces, never return the empty list. *)
Fixpoint split (sep : ascii) (s : string) : list string :=
  match s with
  | EmptyString => [EmptyString]
  | String c rest =>
      if Ascii.eqb c sep then EmptyString :: split sep rest
      else match split sep rest with
           | [] => [String c EmptyString]
           | piece :: pieces => String c piece :: pieces
           end
  end.

(** [sep in s] for a one-character separator. *)
Fixpoint mentions (sep : ascii) (s : string) : bool :=
  match s with
  | EmptyString => false
  | String c rest => Ascii.eqb c sep || mentions sep rest
  end.

(** [needle in s]: some suffix of [s] starts with [needle]. *)
Fixpoint contains (needle s : string) : bool :=
  String.prefix needle s ||
  match s with
  | EmptyString => false
  | String _ rest => contains needle rest
  end.

(** [float(n)] for an integer [n]: the nearest double, ties to even.
    (Python raises [OverflowError] from 2^1024 on, where this is an
    infinity; no length or index gets there.) *)
Definition float_of_int (n : Z) : float :=
  SF2Prim (binary_normalize prec emax n 0 false).

(** The rational a double stands for, if it is finite. *)
Definition exact (f : float) : option Q :=
  match Prim2SF f with
  | S754_zero _ => Some 0%Q
  | S754_finite sign m e =>
      Some (inject_Z (if sign then Z.neg m else Z.pos m) * 2 ^ e)%Q
  | S754_infinity _ => None
  | S754_nan => None
  end.

End Py.

(** ** The records the plotting calls leave behind *)

Module Mpl.

Local Open Scope float_scope.

Inductive FontWeight := normal | bold.

Inductive HAlign := left | center | right.

Inductive VAlign := baseline | vcenter | top | bottom.

Inductive FontStyle := upright | italic.

(** A text artist, as [ax.text(x, y, s, **kwargs)] creates it.  Its
    font size is the one the artist ends up with: the library raises
    a size below 1 to 1. *)
Record Text := mkText {
  t_x : float;
  t_y : float;
  t_s : string;
  t_fontsize : Z;
  t_fontweight : FontWeight;
  t_ha : HAlign;
  t_va : VAlign;
  t_style : FontStyle;
  t_color : string
}.

(** Keyword arguments of [ax.text]. *)
Inductive TextKw :=
| fontsize (n : Z)
| fontweight (w : FontWeight)
| ha (h : HAlign)
| va (v : VAlign)
| style (s : FontStyle)
| color (c : string).

Definition set_kw (t : Text) (k : TextKw) : Text :=
  match k with
  | fontsize n =>
      mkText (t_x t) (t_y t) (t_s t) (Z.max 1 n) (t_fontweight t) (t_ha t) (t_va t) (t_style t) (t_color t)
  | fontweight w => mkText (t_x t) (t_y t) (t_s t) (t_fontsize t) w (t_ha t) (t_va t) (t_style t) (t_color t)
  | ha h => mkText (t_x t) (t_y t) (t_s t) (t_fontsize t) (t_fontweight t) h (t_va t) (t_style t) (t_color t)
  | va v => mkText (t_x t) (t_y t) (t_s t) (t_fontsize t) (t_fontweight t) (t_ha t) v (t_style t) (t_color t)
  | style s => mkText (t_x t) (t_y t) (t_s t) (t_fontsize t) (t_fontweight t) (t_ha t) (t_va t) s (t_color t)
  | color c => mkText (t_x t) (t_y t) (t_s t) (t_fontsize t) (t_fontweight t) (t_ha t) (t_va t) (t_style t) c
  end.

(** The library's defaults for whatever the caller leaves out. *)
Definition make_text (x y : float) (s : string) (kws : list TextKw) : Text :=
  fold_left set_kw kws (mkText x y s 10 normal left baseline upright "black").

(** The properties both kinds of patch are given by [draw_box]. *)
Record PatchProps := mkProps {
  facecolor : string;
  edgecolor : string;
  alpha : float;
  linewidth : float
}.

Inductive Patch :=
| FancyBboxPatch (xy : float * float) (width height : float) (boxstyle : string) (props : PatchProps)
| Rectangle (xy : float * float) (width height : float) (props : PatchProps).

Definition patch_xy (b : Patch) : float * float :=
  match b with
  | FancyBboxPatch xy _ _ _ _ => xy
  | Rectangle xy _ _ _ => xy
  end.

Definition patch_width (b : Patch) : float :=
  match b with
  | FancyBboxPatch _ w _ _ _ => w
  | Rectangle _ w _ _ => w
  end.

Definition patch_height (b : Patch) : float :=
  match b with
  | FancyBboxPatch _ _ h _ _ => h
  | Rectangle _ _ h _ => h
  end.

Definition patch_props (b : Patch) : PatchProps :=
  match b with
  | FancyBboxPatch _ _ _ _ p => p
  | Rectangle _ _ _ p => p
  end.

(** A plain [Rectangle] has sharp corners; a [FancyBboxPatch] has the
    corners its box style names. *)
Definition rounded (b : Patch) : bool :=
  match b with
  | FancyBboxPatch _ _ _ bs _ => String.prefix "round" bs
  | Rectangle _ _ _ _ => false
  end.

(** A line artist, as [ax.plot(xs, ys, fmt, alpha=, linewidth=)]
    creates it. *)
Record Line2D := mkLine {
  l_xdata : list float;
  l_ydata : list float;
  l_fmt : string;
  l_alpha : float;
  l_linewidth : float
}.

Inductive Artist :=
| APatch (b : Patch)
| AText (t : Text)
| ALine (l : Line2D).

(** The axes: its data limits, whether the frame is shown, and every
    artist added so far, oldest first. *)
Record Axes := mkAxes {
  xlim : float * float;
  ylim : float * float;
  axison : bool;
  artists : list Artist
}.

Record Figure := mkFigure {
  figsize : float * float;
  dpi : float;
  axes : Axes;
  tight : bool;
  closed : bool
}.

(** What [savefig] hands to the backend: the figure as it stands and
    the keyword arguments of the call. *)
Record SavedImage := mkImage {
  img_figure : Figure;
  img_dpi : float;
  img_bbox_inches : string;
  img_facecolor : string;
  img_edgecolor : string
}.

Definition new_axes : Axes := mkAxes (0, 1) (0, 1) true [].

Definition new_figure (size : float * float) (d : float) : Figure :=
  mkFigure size d new_axes false false.

(** The data-space points an artist is anchored at: the two opposite
    corners of a patch, the anchor of a text, the vertices of a line. *)
Definition anchor_points (a : Artist) : list (float * float) :=
  match a with
  | APatch b =>
      let '(x, y) := patch_xy b in
      [(x, y); (x + patch_width b, y + patch_height b)]
  | AText t => [(t_x t, t_y t)]
  | ALine l => combine (l_xdata l) (l_ydata l)
  end.

Definition between (lim : float * float) (v : float) : bool :=
  (fst lim <=? v) && (v <=? snd lim).

Definition in_extent (ax : Axes) (pt : float * float) : bool :=
  between (xlim ax) (fst pt) && between (ylim ax) (snd pt).

Definition artist_in_extent (ax : Axes) (a : Artist) : bool :=
  forallb (in_extent ax) (anchor_points a).

Definition all_in_extent (ax : Axes) : bool :=
  forallb (artist_in_extent ax) (artists ax).

End Mpl.

(** ** The running script *)

Module Diagram.

Import Py Mpl.

Local Open Scope float_scope.

(** Everything outside the process.  The script consults none of the
    first four fields; the last one is the file system's answer to an
    attempt to create a file at a path: [None] when the write goes
    through, the operating system's message when it does not. *)
Record World := mkWorld {
  argv : list string;
  environ : gmap string string;
  clock : Z;
  entropy : Z;
  write_error : string -> option string
}.

(** The values bound to module-level names: numbers and the palette
    dictionary. *)
Inductive Value :=
| Num (v : float)
| Dict (d : gmap string string).

Inductive Exn :=
| NameError (name : string)
| TypeError (name : string)
| KeyError (key : string)
| OSError (msg : string).

(** What the process does to the outside, in order. *)
Inductive Effect :=
| Wrote (path : string) (img : SavedImage)
| Printed (line : string).

Record Proc := mkProc {
  world : World;
  globals : gmap string Value;
  figure : option Figure;
  effects : list Effect
}.

Definition init (w : World) : Proc := mkProc w ∅ None [].

Definition stdout (p : Proc) : list string :=
  flat_map (fun e => match e with Printed s => [s] | _ => [] end) (effects p).

Definition files_written (p : Proc) : list string :=
  flat_map (fun e => match e with Wrote path _ => [path] | _ => [] end) (effects p).

(** The axes the name [ax] refers to, if it is bound yet. *)
Definition ax_of (p : Proc) : option Axes := axes <$> figure p.

Definition drawn (p : Proc) : list Artist :=
  match ax_of p with
  | Some a => artists a
  | None => []
  end.

(** *** State and exceptions *)

Inductive Res (A : Type) :=
| Val (a : A)
| Exc (e : Exn).

Arguments Val {A} a.
Arguments Exc {A} e.

Definition M (A : Type) : Type := Proc -> Res A * Proc.

#[global] Instance M_ret : MRet M := fun A a p => (Val a, p).

#[global] Instance M_bind : MBind M := fun A B f m p =>
  match m p with
  | (Val a, p') => f a p'
  | (Exc e, p') => (Exc e, p')
  end.

Definition raise {A : Type} (e : Exn) : M A := fun p => (Exc e, p).

(** Statements one after the other; the first exception ends the run. *)
Fixpoint exec (stmts : list (M unit)) : M unit :=
  match stmts with
  | [] => mret tt
  | s :: rest => s ;; exec rest
  end.

(** [for i, a in enumerate(l): body], counting from [i]. *)
Fixpoint for_enumerate {A : Type} (i : Z) (l : list A) (body : Z -> A -> M unit) : M unit :=
  match l with
  | [] => mret tt
  | a :: rest => body i a ;; for_enumerate (i + 1)%Z rest body
  end.

Definition len {A : Type} (l : list A) : Z := Z.of_nat (length l).

(** *** Module-level names *)

(** [name = v] *)
Definition assign (name : string) (v : Value) : M unit := fun p =>
  (Val tt, mkProc (world p) (<[name := v]> (globals p)) (figure p) (effects p)).

(** Reading a name that holds a number.  (Were the name bound to the
    dictionary, Python would fail only where the value is first used;
    here the read itself fails.  The module never binds the name of a
    number to the dictionary.) *)
Definition num (name : string) : M float := fun p =>
  match globals p !! name with
  | None => (Exc (NameError name), p)
  | Some (Num q) => (Val q, p)
  | Some (Dict _) => (Exc (TypeError name), p)
  end.

(** [name[key]] on a name that holds a dictionary. *)
Definition subscript (name key : string) : M string := fun p =>
  match globals p !! name with
  | None => (Exc (NameError name), p)
  | Some (Num _) => (Exc (TypeError name), p)
  | Some (Dict d) =>
      match d !! key with
      | Some v => (Val v, p)
      | None => (Exc (KeyError key), p)
      end
  end.

(** *** Calls into the plotting library *)

(** [fig, ax = plt.subplots(figsize=size, dpi=d)] *)
Definition subplots (size : float * float) (d : float) : M unit := fun p =>
  (Val tt, mkProc (world p) (globals p) (Some (new_figure size d)) (effects p)).

(** A method of [ax] that updates the axes in place. *)
Definition on_ax (f : Axes -> Axes) : M unit := fun p =>
  match figure p with
  | None => (Exc (NameError "ax"), p)
  | Some g =>
      (Val tt, mkProc (world p) (globals p)
                 (Some (mkFigure (figsize g) (dpi g) (f (axes g)) (tight g) (closed g)))
                 (effects p))
  end.

Definition add_artist (a : Artist) : M unit :=
  on_ax (fun ax => mkAxes (xlim ax) (ylim ax) (axison ax) (artists ax ++ [a])).

Definition ax_set_xlim (lo hi : float) : M unit :=
  on_ax (fun ax => mkAxes (lo, hi) (ylim ax) (axison ax) (artists ax)).

Definition ax_set_ylim (lo hi : float) : M unit :=
  on_ax (fun ax => mkAxes (xlim ax) (lo, hi) (axison ax) (artists ax)).

(** [ax.axis('off')] *)
Definition ax_axis_off : M unit :=
  on_ax (fun ax => mkAxes (xlim ax) (ylim ax) false (artists ax)).

Definition ax_text (x y : float) (s : string) (kws : list TextKw) : M unit :=
  add_artist (AText (make_text x y s kws)).

Definition ax_add_patch (box : Patch) : M unit :=
  add_artist (APatch box).

Definition ax_plot (xs ys : list float) (fmt : string) (al lw : float) : M unit :=
  add_artist (ALine (mkLine xs ys fmt al lw)).

(** The figure the [plt.] calls act on: the current one, or a fresh
    default one when there is none. *)
Definition gcf (p : Proc) : Figure :=
  match figure p with
  | Some g => g
  | None => new_figure (6.4, 4.8) 100
  end.

Definition tight_layout : M unit := fun p =>
  let g := gcf p in
  (Val tt, mkProc (world p) (globals p)
             (Some (mkFigure (figsize g) (dpi g) (axes g) true (closed g)))
             (effects p)).

(** [plt.savefig(path, dpi=, bbox_inches=, facecolor=, edgecolor=)]:
    raises the operating system's error when the file cannot be
    created, and otherwise leaves the image at [path]. *)
Definition savefig (path : string) (d : float) (bbox fc ec : string) : M unit := fun p =>
  let g := gcf p in
  match write_error (world p) path with
  | Some msg => (Exc (OSError msg), mkProc (world p) (globals p) (Some g) (effects p))
  | None =>
      (Val tt, mkProc (world p) (globals p) (Some g)
                 (effects p ++ [Wrote path (mkImage g d bbox fc ec)]))
  end.

(** [plt.close()] *)
Definition close : M unit := fun p =>
  (Val tt, mkProc (world p) (globals p)
             ((fun g => mkFigure (figsize g) (dpi g) (axes g) (tight g) true) <$> figure p)
             (effects p)).

Definition print (line : string) : M unit := fun p =>
  (Val tt, mkProc (world p) (globals p) (figure p) (effects p ++ [Printed line])).

(** *** [draw_box]

    The parameter [ax] of the source is the one axes object of the
    process; [fontsize] and [style] default to [10] and ['round']. *)
Definition draw_box (x y width height : float) (text color : string)
    (fontsize : Z) (style : string) : M unit :=
  let box :=
    if String.eqb style "round" then
      FancyBboxPatch (x, y) width height "round,pad=0.1"
        (mkProps color "black" 0.3 1.5)
    else
      Rectangle (x, y) width height
        (mkProps color "black" 0.3 1.5) in
  ax_add_patch box ;;
  let lines := split LF text in
  let line_height := height / float_of_int (len lines + 1) in
  for_enumerate 0 lines (fun i line =>
    let y_pos := y + height - float_of_int (i + 1) * line_height in
    let weight := if (i =? 0)%Z then bold else normal in
    let size := if (i =? 0)%Z then fontsize else (fontsize - 1)%Z in
    ax_text (x + width / 2) y_pos line
      [Mpl.fontsize size; fontweight weight; ha center; va vcenter]).

Definition default_fontsize : Z := 10.

Definition default_style : string := "round".

(** *** The module body, statement by statement *)

Definition figure_setup : list (M unit) :=
  [ subplots (20, 24) 100;
    ax_set_xlim 0 100;
    ax_set_ylim 0 120;
    ax_axis_off ].

Definition title : list (M unit) :=
  [ ax_text 50 118 "AI Governance Navigator - Directory Structure"
      [fontsize 24; fontweight bold; ha center];
    ax_text 50 115 "Complete Project Architecture Overview"
      [fontsize 14; ha center; color "gray"] ].

(** The dictionary display of the source, entry by entry. *)
Definition palette : gmap string string :=
  <["test" := "#4A90E2"]>
  (<["db" := "#BD10E0"]>
  (<["docs" := "#9013FE"]>
  (<["config" := "#7ED321"]>
  (<["agents" := "#F5A623"]>
  (<["qa" := "#50E3C2"]>
  (<["core" := "#4A90E2"]> ∅)))))).

Definition color_scheme : M unit := assign "colors" (Dict palette).

Definition label_root : string := "C:\code\AIGovNav\".

Definition label_src : string :=
  "📁 src/" ++ nl ++ nl ++ "backend/" ++ nl ++ "• routes/" ++ nl ++ "• services/" ++ nl
  ++ "• middleware/" ++ nl ++ "• scripts/" ++ nl ++ "• data/" ++ nl ++ nl ++ "frontend/" ++ nl
  ++ "• pages/" ++ nl ++ "• components/" ++ nl ++ "• contexts/" ++ nl ++ "• services/".

Definition label_qa : string :=
  "📁 qa/" ++ nl ++ nl ++ "validators/" ++ nl ++ "• EUAIActCompliance" ++ nl
  ++ "• LLMGovernance" ++ nl ++ "• PrismaIntegrity" ++ nl ++ nl ++ "categories/" ++ nl
  ++ "• security/" ++ nl ++ "• performance/" ++ nl ++ "• quality/" ++ nl
  ++ "• architecture/" ++ nl ++ "• testing/".

Definition label_agents : string :=
  "🤖 Agents" ++ nl ++ nl ++ "product/" ++ nl ++ "• user-stories" ++ nl ++ "• api-specs" ++ nl
  ++ "• requirements" ++ nl ++ nl ++ "engineer/" ++ nl ++ "• swarm-config" ++ nl ++ nl
  ++ "designer/" ++ nl ++ "• swarm-config".

Definition label_prisma : string :=
  "🗄️ prisma/" ++ nl ++ nl ++ "schema.prisma" ++ nl ++ "• AISystem" ++ nl ++ "• User" ++ nl
  ++ "• PolicyPack" ++ nl ++ "• AuditLog" ++ nl ++ "• Document".

Definition label_tests : string :=
  "🧪 tests/" ++ nl ++ nl ++ "unit/" ++ nl ++ "• intake.test.ts" ++ nl
  ++ "• riskClassification.test.ts" ++ nl ++ nl ++ "integration/" ++ nl ++ "• auth.test.ts".

Definition label_config : string :=
  "⚙️ Config Files" ++ nl ++ nl ++ "• docker-compose.yml" ++ nl ++ "• package.json" ++ nl
  ++ "• tsconfig.json" ++ nl ++ "• vite.config.ts" ++ nl ++ "• vitest.config.ts" ++ nl
  ++ "• tailwind.config.js".

Definition label_reference : string :=
  "📚 Reference/" ++ nl ++ nl ++ "Market Research/" ++ nl ++ "• AIGovNav Research docs" ++ nl
  ++ "• Images & diagrams" ++ nl ++ "• Conversion reports" ++ nl ++ nl ++ "Reference Images" ++ nl
  ++ "• AI Registry.png" ++ nl ++ "• dashboard.png" ++ nl ++ "• swarm diagrams".

Definition label_documentation : string :=
  "📝 Documentation" ++ nl ++ nl ++ "• CLAUDE.md - AI instructions" ++ nl
  ++ "• QA_CALIBRATION_SUMMARY.md" ++ nl ++ "• CTO_DEMO_MATERIALS.md" ++ nl
  ++ "• replit-setup-guide.md" ++ nl ++ "• setup-github.md" ++ nl ++ "• start-local.md" ++ nl
  ++ "• swarm-orchestrator.md".

Definition label_devops : string :=
  "🚀 DevOps" ++ nl ++ nl ++ ".github/workflows/" ++ nl ++ "• qa.yml" ++ nl ++ nl
  ++ ".claude/" ++ nl ++ "• settings.local.json".

(** Expressions of the module body: a name that holds a number, and a
    name plus or minus a literal. *)
Definition y_pos : M float := num "y_pos".

Definition stats_y : M float := num "stats_y".

Definition tech_y : M float := num "tech_y".

Definition features_y : M float := num "features_y".

Definition lit (q : float) : M float := mret q.

Definition minus (e : M float) (d : float) : M float := v ← e; mret (v - d).

Definition plus (e : M float) (d : float) : M float := v ← e; mret (v + d).

Notation "e -: d" := (minus e d) (at level 50, left associativity).

Notation "e +: d" := (plus e d) (at level 50, left associativity).

(** [colors[key]] *)
Definition colors (key : string) : M string := subscript "colors" key.

(** [name = e] and, with [e] mentioning [name], [name -= d]. *)
Definition assign_num (name : string) (e : M float) : M unit :=
  v ← e; assign name (Num v).

(** A [draw_box] call of the module body.  Arguments are evaluated
    left to right: the [y] expression first, the palette entry second;
    [style] is left to its default. *)
Definition call_draw_box (x : float) (y : M float) (width height : float) (text : string)
    (color : M string) (fontsize : Z) : M unit :=
  yv ← y; c ← color; draw_box x yv width height text c fontsize default_style.

(** [ax.text(x, y, s, **kws)] with a computed [y]. *)
Definition call_ax_text (x : float) (y : M float) (s : string) (kws : list TextKw) : M unit :=
  yv ← y; ax_text x yv s kws.

(** [ax.plot([x1, x2], [y1, y2], 'k--', alpha=0.3, linewidth=1)] *)
Definition call_ax_plot (x1 x2 : float) (y1 y2 : M float) : M unit :=
  a ← y1; b ← y2; ax_plot [x1; x2] [a; b] "k--" 0.3 1.

Definition main_sections : list (M unit) :=
  [ assign_num "y_pos" (lit 105);
    (* Root level *)
    call_draw_box 35 y_pos 30 5 label_root (colors "config") 12;
    assign_num "y_pos" (y_pos -: 8);
    (* Core Application Section *)
    call_draw_box 5 (y_pos -: 25) 28 25 label_src (colors "core") 11;
    (* Quality Assurance Section *)
    call_draw_box 35 (y_pos -: 25) 28 25 label_qa (colors "qa") 11;
    (* Swarm Agents Section *)
    call_draw_box 65 (y_pos -: 25) 28 25 label_agents (colors "agents") 11;
    assign_num "y_pos" (y_pos -: 30);
    (* Database & Testing *)
    call_draw_box 5 (y_pos -: 15) 28 15 label_prisma (colors "db") 11;
    call_draw_box 35 (y_pos -: 15) 28 15 label_tests (colors "test") 11;
    (* Configuration Files *)
    call_draw_box 65 (y_pos -: 15) 28 15 label_config (colors "config") 11;
    assign_num "y_pos" (y_pos -: 20);
    (* Documentation & Reference *)
    call_draw_box 5 (y_pos -: 15) 42 15 label_reference (colors "docs") 11;
    call_draw_box 50 (y_pos -: 15) 43 15 label_documentation (colors "docs") 11;
    assign_num "y_pos" (y_pos -: 20);
    (* DevOps & CI/CD *)
    call_draw_box 5 (y_pos -: 10) 28 10 label_devops (colors "config") 11].

Definition statistics_box : list (M unit) :=
  [ assign_num "stats_y" (y_pos -: 10);
    call_draw_box 35 stats_y 58 10 "" (colors "qa") 11;
    call_ax_text 64 (stats_y +: 7) "📊 QA Statistics" [fontsize 12; fontweight bold; ha center];
    call_ax_text 45 (stats_y +: 4) "147+ Checkpoints" [fontsize 10; ha center];
    call_ax_text 64 (stats_y +: 4) "8 Validators" [fontsize 10; ha center];
    call_ax_text 83 (stats_y +: 4) "3 Swarm Agents" [fontsize 10; ha center];
    call_ax_text 45 (stats_y +: 1.5) "27 EU AI Act" [fontsize 10; ha center];
    call_ax_text 64 (stats_y +: 1.5) "23 LLM Gov" [fontsize 10; ha center];
    call_ax_text 83 (stats_y +: 1.5) "14 Prisma" [fontsize 10; ha center] ].

Definition tech_stack : list (M unit) :=
  [ assign_num "tech_y" (y_pos -: 25);
    call_draw_box 5 tech_y 88 12 "" (colors "core") 11;
    call_ax_text 49 (tech_y +: 10) "💻 Technology Stack" [fontsize 12; fontweight bold; ha center];
    (* Frontend stack *)
    call_ax_text 20 (tech_y +: 7) "Frontend:" [fontsize 10; fontweight bold];
    call_ax_text 20 (tech_y +: 5) "• React 18 + TypeScript" [fontsize 9];
    call_ax_text 20 (tech_y +: 3.5) "• Vite + TailwindCSS" [fontsize 9];
    call_ax_text 20 (tech_y +: 2) "• React Router + Zustand" [fontsize 9];
    (* Backend stack *)
    call_ax_text 49 (tech_y +: 7) "Backend:" [fontsize 10; fontweight bold];
    call_ax_text 49 (tech_y +: 5) "• Node.js + Express" [fontsize 9];
    call_ax_text 49 (tech_y +: 3.5) "• Prisma + PostgreSQL" [fontsize 9];
    call_ax_text 49 (tech_y +: 2) "• Supabase Auth + JWT" [fontsize 9];
    (* DevOps stack *)
    call_ax_text 78 (tech_y +: 7) "DevOps:" [fontsize 10; fontweight bold];
    call_ax_text 78 (tech_y +: 5) "• Docker + GitHub Actions" [fontsize 9];
    call_ax_text 78 (tech_y +: 3.5) "• Vitest + ESLint" [fontsize 9];
    call_ax_text 78 (tech_y +: 2) "• Context7 Integration" [fontsize 9] ].

Definition key_features : list (M unit) :=
  [ assign_num "features_y" (tech_y -: 8);
    call_draw_box 5 features_y 88 6 "" (colors "agents") 11;
    call_ax_text 49 (features_y +: 4.5) "🎯 Key Features" [fontsize 12; fontweight bold; ha center];
    call_ax_text 25 (features_y +: 2) "✓ EU AI Act Compliance Engine" [fontsize 9];
    call_ax_text 25 (features_y +: 0.5) "✓ Real-time LLM/Prompt Monitoring" [fontsize 9];
    call_ax_text 68 (features_y +: 2) "✓ Multi-Agent Swarm Architecture" [fontsize 9];
    call_ax_text 68 (features_y +: 0.5) "✓ Automated Risk Classification" [fontsize 9] ].

Definition connectors : list (M unit) :=
  [ (* Core to QA *)
    call_ax_plot 19 35 (y_pos +: 10) (y_pos +: 10);
    (* QA to Tests *)
    call_ax_plot 49 49 (y_pos +: 5) (y_pos -: 5);
    (* Agents to Core *)
    call_ax_plot 65 33 (y_pos +: 10) (y_pos +: 10) ].

Definition footer : list (M unit) :=
  [ ax_text 50 2 "AI Governance Navigator - Enterprise-grade AI Governance Platform"
      [fontsize 10; ha center; style italic; color "gray"];
    ax_text 50 0.5 "Compliant with EU AI Act | Real-time Monitoring | Automated Documentation"
      [fontsize 9; ha center; color "gray"] ].

Definition output : list (M unit) :=
  [ tight_layout;
    savefig "C:\code\AIGovNav\Reference\directory_structure.png" 150 "tight" "white" "none";
    close;
    print "Directory structure diagram saved to: C:\code\AIGovNav\Reference\directory_structure.png" ].

(** Everything that draws, in source order, around the palette. *)
Definition before_palette : list (M unit) := figure_setup ++ title.

Definition after_palette : list (M unit) :=
  main_sections ++ statistics_box ++ tech_stack ++ key_features ++ connectors ++ footer.

Definition drawing : list (M unit) :=
  before_palette ++ [color_scheme] ++ after_palette.

Definition script : list (M unit) := drawing ++ output.

(** *** The interpreter's top level

    An exception nobody catches is reported on standard error and the
    process exits with status 1; a run that reaches the end of the
    module exits with status 0. *)
Record Exit := mkExit {
  status : Z;
  reported : option Exn;
  final : Proc
}.

Definition main (w : World) : Exit :=
  match exec script (init w) with
  | (Val _, p) => mkExit 0 None p
  | (Exc e, p) => mkExit 1 (Some e) p
  end.

(** *** Observations on a run *)

(** The process [p], whose figure is [g], after further artists have
    been added to its axes. *)
Definition paint (p : Proc) (g : Figure) (new : list Artist) : Proc :=
  mkProc (world p) (globals p)
    (Some (mkFigure (figsize g) (dpi g)
             (mkAxes (xlim (axes g)) (ylim (axes g)) (axison (axes g))
                (artists (axes g) ++ new))
             (tight g) (closed g)))
    (effects p).

(** What a computation started in [p] adds to the axes. *)
Definition added (m : M unit) (p : Proc) : list Artist :=
  drop (length (drawn p)) (drawn (snd (m p))).

Definition patches_of (l : list Artist) : list Patch :=
  omap (fun a => match a with APatch b => Some b | _ => None end) l.

Definition texts_of (l : list Artist) : list Text :=
  omap (fun a => match a with AText t => Some t | _ => None end) l.

(** [enumerate(l, start=i)] *)
Fixpoint enumerate_from {A : Type} (i : Z) (l : list A) : list (Z * A) :=
  match l with
  | [] => []
  | a :: rest => (i, a) :: enumerate_from (i + 1)%Z rest
  end.

(** The process once the first [n] statements of the module have run
    (or once the run has ended, if it ends earlier). *)
Definition after (n : nat) (w : World) : Proc :=
  snd (exec (take n script) (init w)).

(** The texts at the head of [l] that are centred vertically on their
    anchor. *)
Fixpoint centred_run (l : list Artist) : list Text :=
  match l with
  | AText t :: rest =>
      match t_va t with
      | vcenter => t :: centred_run rest
      | _ => []
      end
  | _ => []
  end.

(** The boxes of a drawing: each patch with the vertically centred
    texts that follow it.  ([draw_box] centres its texts on their
    anchors; the free-standing texts of the script keep the default,
    the baseline.) *)
Fixpoint boxes_of (l : list Artist) : list (Patch * list Text) :=
  match l with
  | [] => []
  | APatch b :: rest => (b, centred_run rest) :: boxes_of rest
  | _ :: rest => boxes_of rest
  end.

(** Where even spacing in exact arithmetic puts line [i] of [n] in a
    box with bottom edge [y] and height [height]. *)
Definition ideal_line (y height : Q) (n i : nat) : Q :=
  (y + height - (inject_Z (Z.of_nat i) + 1) * height / (inject_Z (Z.of_nat n) + 1))%Q.

Definition close_to (eps a b : Q) : bool := Qle_bool (Qabs (a - b)) eps.

(** Whether the texts of a box sit within [eps] of their ideal
    positions, each within [eps] of one ideal gap below the one
    before. *)
Definition evenly_within (eps : Q) (b : Patch) (ts : list Text) : bool :=
  match exact (snd (patch_xy b)), exact (patch_height b), mapM (fun t => exact (t_y t)) ts with
  | Some y, Some height, Some qs =>
      forallb (fun iq => close_to eps (snd iq) (ideal_line y height (length ts) (fst iq)))
        (imap pair qs)
      && forallb (fun qq => close_to eps (fst qq - snd qq)
                              (height / (inject_Z (Z.of_nat (length ts)) + 1))%Q)
           (zip qs (tail qs))
  | _, _, _ => false
  end.

(** Whether a text sits exactly on the horizontal midline of a box. *)
Definition on_midline (b : Patch) (t : Text) : bool :=
  match exact (snd (patch_xy b)), exact (patch_height b), exact (t_y t) with
  | Some y, Some height, Some q => Qeq_bool q (y + height / 2)%Q
  | _, _, _ => false
  end.

(** A computation that leaves the binding of the name [colors] as it
    found it. *)
Definition keeps_palette {A : Type} (m : M A) : Prop :=
  forall p, globals (snd (m p)) !! "colors" = globals p !! "colors".

(** Two worlds in which every write goes through, which differ in
    everything else, and one whose file system refuses every write. *)
Definition writable_world : World :=
  mkWorld [] ∅ 0 0 (fun _ => None).

Definition busy_world : World :=
  mkWorld ["create_directory_diagram.py"; "--verbose"] (<["HOME" := "/root"]> ∅)
    1730000000 42 (fun _ => None).

Definition unwritable_world : World :=
  mkWorld ["create_directory_diagram.py"; "--verbose"] (<["HOME" := "/root"]> ∅)
    1730000000 42 (fun _ => Some "No such file or directory").

(** A process that has only set up its figure. *)
Definition blank_figure : Figure :=
  mkFigure (20, 24) 100 (mkAxes (0, 100) (0, 120) false []) false false.

Definition blank : Proc := mkProc writable_world ∅ (Some blank_figure) [].

(** The process at the end of the drawing statements, and its figure
    once [tight_layout] has run. *)
Definition painted : Proc := snd (exec drawing (init writable_world)).

Definition laid_out : Figure := gcf (snd (tight_layout painted)).

(** The path the image is saved to. *)
Definition save_path : string := "C:\code\AIGovNav\Reference\directory_structure.png".

(** Two runs that agree on everything but the world around them. *)
Definition same_run (e1 e2 : Exit) : Prop :=
  status e1 = status e2 /\
  reported e1 = reported e2 /\
  globals (final e1) = globals (final e2) /\
  figure (final e1) = figure (final e2) /\
  effects (final e1) = effects (final e2).

End Diagram.

(** ** Further observations *)

Module Further.

Import Py Mpl Diagram.

Local Open Scope float_scope.

(** [sep.join(l)] *)
Fixpoint join (sep : string) (l : list string) : string :=
  match l with
  | [] => EmptyString
  | a :: rest =>
      match rest with
      | [] => a
      | _ :: _ => a ++ sep ++ join sep rest
      end
  end.

(** [s.count(sep)] for a one-character separator. *)
Fixpoint count (sep : ascii) (s : string) : nat :=
  match s with
  | EmptyString => 0
  | String c rest => (if Ascii.eqb c sep then 1 else 0) + count sep rest
  end.

(** The part of the axes that is not its artists: the limits and
    whether the frame is shown. *)
Definition frame (p : Proc) : option (float * float * (float * float) * bool) :=
  (fun ax => (xlim ax, ylim ax, axison ax)) <$> ax_of p.

(** [q] has everything [p] has drawn, in the same order and possibly
    followed by more, within the same frame. *)
Definition settled (p q : Proc) : Prop :=
  drawn p `prefix_of` drawn q /\
  (forall fr, frame p = Some fr -> frame q = Some fr).

(** A computation that relates every state it is started in to the
    state it ends in, whether it returns or raises. *)
Definition steps (R : Proc -> Proc -> Prop) {A : Type} (m : M A) : Prop :=
  forall p, R p (snd (m p)).

(** The module body after the four statements that set up the figure. *)
Definition body : list (M unit) :=
  title ++ color_scheme :: (after_palette ++ output).

End Further.

(** * Properties *)

Import Py Mpl Diagram Further.

Local Open Scope float_scope.

(** ** Splitting *)

Lemma split_not_nil (sep : ascii) (s : string) : split sep s <> [].
Proof.
  induction s as [|c s IH]; simpl; [discriminate|].
  destruct (Ascii.eqb c sep); [discriminate|].
  destruct (split sep s); discriminate.
Qed.

Lemma split_without_sep (sep : ascii) (s : string) :
  mentions sep s = false -> split sep s = [s].
Proof.
  induction s as [|c s IH]; simpl; [reflexivity|].
  destruct (Ascii.eqb c sep); simpl; [discriminate|].
  intros H. rewrite (IH H). reflexivity.
Qed.

Lemma len_split_pos (sep : ascii) (s : string) : (0 < len (split sep s))%Z.
Proof.
  unfold len. pose proof (split_not_nil sep s) as H.
  destruct (split sep s); [congruence|]. simpl length. lia.
Qed.

(** ** Enumerating *)

Lemma enumerate_from_length {A : Type} (l : list A) (i : Z) :
  length (enumerate_from i l) = length l.
Proof. revert i. induction l as [|a l IH]; intros i; simpl; [|rewrite IH]; reflexivity. Qed.

Lemma enumerate_from_lookup {A : Type} (l : list A) (i : Z) (k : nat) :
  enumerate_from i l !! k = (fun a => ((i + Z.of_nat k)%Z, a)) <$> (l !! k).
Proof.
  revert i k. induction l as [|a l IH]; intros i k; [reflexivity|].
  destruct k as [|k]; simpl.
  - rewrite Z.add_0_r. reflexivity.
  - rewrite IH. replace (i + 1 + Z.of_nat k)%Z with (i + Z.pos (Pos.of_succ_nat k))%Z by lia.
    reflexivity.
Qed.

(** ** Adding artists *)

Lemma paint_nil (p : Proc) (g : Figure) : figure p = Some g -> paint p g [] = p.
Proof.
  destruct p as [w gl f e]; simpl; intros ->. unfold paint; simpl.
  destruct g as [sz d [xl yl on arts] t c]; simpl. rewrite app_nil_r. reflexivity.
Qed.

Lemma paint_paint (p : Proc) (g g' : Figure) (l1 l2 : list Artist) :
  figure (paint p g l1) = Some g' -> paint (paint p g l1) g' l2 = paint p g (l1 ++ l2).
Proof.
  unfold paint; simpl. intros [= <-]; simpl. rewrite <- app_assoc. reflexivity.
Qed.

Lemma add_artist_run (a : Artist) (p : Proc) (g : Figure) :
  figure p = Some g -> add_artist a p = (Val tt, paint p g [a]).
Proof. intros H. unfold add_artist, on_ax. rewrite H. reflexivity. Qed.

Lemma figure_paint (p : Proc) (g : Figure) (l : list Artist) :
  exists g', figure (paint p g l) = Some g'.
Proof. eexists. reflexivity. Qed.

Lemma for_enumerate_texts {A : Type} (mk : Z -> A -> Text) (l : list A) :
  forall (i : Z) (p : Proc) (g : Figure),
    figure p = Some g ->
    for_enumerate i l (fun j a => add_artist (AText (mk j a))) p
    = (Val tt, paint p g (map (fun ja => AText (mk (fst ja) (snd ja))) (enumerate_from i l))).
Proof.
  induction l as [|a l IH]; intros i p g Hg; simpl.
  - rewrite paint_nil by assumption. reflexivity.
  - unfold mbind, M_bind. rewrite (add_artist_run _ _ _ Hg).
    destruct (figure_paint p g [AText (mk i a)]) as [g' Hg'].
    rewrite (IH _ _ _ Hg'). rewrite (paint_paint _ _ _ _ _ Hg'). reflexivity.
Qed.

Lemma drawn_paint (p : Proc) (g : Figure) (l : list Artist) :
  figure p = Some g -> drawn (paint p g l) = (drawn p ++ l)%list.
Proof. intros H. unfold drawn, ax_of, paint; simpl. rewrite H. reflexivity. Qed.

Lemma added_paint (m : M unit) (p : Proc) (g : Figure) (l : list Artist) :
  figure p = Some g -> m p = (Val tt, paint p g l) -> added m p = l.
Proof.
  intros Hg Hm. unfold added. rewrite Hm; simpl. rewrite (drawn_paint _ _ _ Hg).
  apply drop_app_length.
Qed.

(** ** What one [draw_box] call does *)

Lemma texts_of_box (b : Patch) {A : Type} (mk : A -> Text) (l : list A) :
  texts_of (APatch b :: map (fun a => AText (mk a)) l) = map mk l.
Proof.
  unfold texts_of; simpl. induction l as [|a l IH]; simpl; [|rewrite IH]; reflexivity.
Qed.

Lemma patches_of_box (b : Patch) {A : Type} (mk : A -> Text) (l : list A) :
  patches_of (APatch b :: map (fun a => AText (mk a)) l) = [b].
Proof.
  unfold patches_of; simpl. f_equal. induction l as [|a l IH]; simpl; [reflexivity|exact IH].
Qed.

(** With the axes in place, a call raises nothing and adds one patch
    followed by one text per line of the label. *)
Lemma draw_box_run (x y width height : float) (text color : string) (fontsize : Z)
    (style : string) (p : Proc) (g : Figure) :
  figure p = Some g ->
  draw_box x y width height text color fontsize style p
  = (Val tt,
     paint p g
       (APatch (if String.eqb style "round"
                then FancyBboxPatch (x, y) width height "round,pad=0.1"
                       (mkProps color "black" 0.3 1.5)
                else Rectangle (x, y) width height (mkProps color "black" 0.3 1.5))
        :: map (fun ja =>
                  AText (make_text (x + width / 2)
                           (y + height
                            - float_of_int (fst ja + 1) * (height / float_of_int (len (split LF text) + 1)))
                           (snd ja)
                           [Mpl.fontsize (if (fst ja =? 0)%Z then fontsize else (fontsize - 1)%Z);
                            fontweight (if (fst ja =? 0)%Z then bold else normal);
                            ha center; va vcenter]))
             (enumerate_from 0 (split LF text)))).
Proof.
  intros Hg. unfold draw_box, ax_add_patch, ax_text.
  unfold mbind at 1. unfold M_bind at 1.
  rewrite (add_artist_run _ _ _ Hg).
  match goal with |- context [paint p g [?a]] =>
    destruct (figure_paint p g [a]) as [g' Hg'] end.
  rewrite (for_enumerate_texts _ _ _ _ _ Hg').
  rewrite (paint_paint _ _ _ _ _ Hg'). reflexivity.
Qed.

(** The [k]-th text a call adds is built from the [k]-th line. *)
Lemma draw_box_texts (x y width height : float) (text color : string) (fontsize : Z)
    (style : string) (p : Proc) (g : Figure) (k : nat) :
  figure p = Some g ->
  texts_of (added (draw_box x y width height text color fontsize style) p) !! k
  = (fun line =>
       make_text (x + width / 2)
         (y + height
          - float_of_int (Z.of_nat k + 1) * (height / float_of_int (len (split LF text) + 1)))
         line
         [Mpl.fontsize (if (Z.of_nat k =? 0)%Z then fontsize else (fontsize - 1)%Z);
          fontweight (if (Z.of_nat k =? 0)%Z then bold else normal);
          ha center; va vcenter])
    <$> (split LF text !! k).
Proof.
  intros Hg.
  rewrite (added_paint _ _ _ _ Hg (draw_box_run x y width height text color fontsize style p g Hg)).
  rewrite texts_of_box, list_lookup_fmap, enumerate_from_lookup.
  destruct (split LF text !! k); reflexivity.
Qed.

Lemma draw_box_texts_length (x y width height : float) (text color : string) (fontsize : Z)
    (style : string) (p : Proc) (g : Figure) :
  figure p = Some g ->
  length (texts_of (added (draw_box x y width height text color fontsize style) p))
  = length (split LF text).
Proof.
  intros Hg.
  rewrite (added_paint _ _ _ _ Hg (draw_box_run x y width height text color fontsize style p g Hg)).
  rewrite texts_of_box, length_map. apply enumerate_from_length.
Qed.

(** ** Claims about [draw_box] *)

(** C8. For every [draw_box] call made once the axes exist, exactly one
    patch is added: it sits at [(x, y)] with the given width and height,
    is filled with the given colour at opacity 0.3, has a black edge,
    and has rounded corners exactly when [style] is ['round']. *)
Theorem C8_one_patch_per_box (x y width height : float) (text color : string)
    (fontsize : Z) (style : string) (p : Proc) (g : Figure) :
  figure p = Some g ->
  exists b : Patch,
    patches_of (added (draw_box x y width height text color fontsize style) p) = [b] /\
    patch_xy b = (x, y) /\
    patch_width b = width /\
    patch_height b = height /\
    facecolor (patch_props b) = color /\
    edgecolor (patch_props b) = "black" /\
    alpha (patch_props b) = 0.3 /\
    (rounded b = true <-> style = "round").
Proof.
  intros Hg.
  rewrite (added_paint _ _ _ _ Hg (draw_box_run x y width height text color fontsize style p g Hg)).
  rewrite patches_of_box. eexists. split; [reflexivity|].
  destruct (String.eqb_spec style "round") as [E|E]; simpl; repeat split; try reflexivity.
  - intros _. exact E.
  - discriminate.
  - intros E'. contradiction.
Qed.

(** ** The run of the whole module *)

Lemma exec_app (a b : list (M unit)) (p : Proc) :
  exec (a ++ b) p
  = match exec a p with
    | (Val _, p') => exec b p'
    | (Exc e, p') => (Exc e, p')
    end.
Proof.
  revert p. induction a as [|s a IH]; intros p; simpl; [reflexivity|].
  unfold mbind, M_bind. destruct (s p) as [[[]|e] p']; [apply IH|reflexivity].
Qed.

(** The drawing statements raise nothing, whatever the world, and what
    they leave behind does not depend on it. *)
Lemma drawing_run (w : World) :
  exec drawing (init w) = (Val tt, mkProc w (globals painted) (figure painted) []).
Proof. vm_compute. reflexivity. Qed.

Lemma tight_layout_painted (w : World) :
  tight_layout (mkProc w (globals painted) (figure painted) [])
  = (Val tt, mkProc w (globals painted) (Some laid_out) []).
Proof. vm_compute. reflexivity. Qed.

(** The two ways a run can end. *)
Lemma main_run (w : World) :
  main w
  = match write_error w save_path with
    | Some msg =>
        mkExit 1 (Some (OSError msg)) (mkProc w (globals painted) (Some laid_out) [])
    | None =>
        mkExit 0 None
          (mkProc w (globals painted)
             (Some (mkFigure (figsize laid_out) (dpi laid_out) (axes laid_out)
                      (tight laid_out) true))
             [Wrote save_path (mkImage laid_out 150 "tight" "white" "none");
              Printed ("Directory structure diagram saved to: " ++ save_path)])
    end.
Proof.
  unfold main, script. rewrite exec_app, drawing_run.
  unfold output, exec. unfold mbind at 1. unfold M_bind at 1.
  rewrite tight_layout_painted.
  generalize laid_out (globals painted). intros L G.
  unfold mbind, M_bind, savefig. cbn [world gcf figure].
  change "C:\code\AIGovNav\Reference\directory_structure.png" with save_path.
  destruct (write_error w save_path) as [msg|]; reflexivity.
Qed.

(** The axes at the end of a run are those the drawing statements
    left, whether or not the save went through. *)
Lemma final_axes (w : World) : ax_of (final (main w)) = Some (axes laid_out).
Proof. rewrite main_run. destruct (write_error w save_path); reflexivity. Qed.

(** What the save call asks of the backend: the figure was created at
    20 x 24 inches and 100 dots per inch, and is saved at 150 dots per
    inch, cropped to the tight bounding box of what was drawn. *)
Lemma save_request (w : World) :
  write_error w save_path = None ->
  exists img : SavedImage,
    effects (final (main w)) !! 0%nat = Some (Wrote save_path img) /\
    figsize (img_figure img) = (20, 24) /\
    dpi (img_figure img) = 100 /\
    img_dpi img = 150 /\
    img_bbox_inches img = "tight".
Proof.
  intros H. rewrite main_run, H. eexists. split; [reflexivity|].
  vm_compute. repeat split.
Qed.

(** ** Claims about the run *)

(** C3. If the file cannot be written, the run ends with the operating
    system's error uncaught: the exit status is 1 (not 0), the error
    reported is that error, nothing has been printed and no file has
    been recorded as written. *)
Theorem C3_save_failure_is_fatal (w : World) (msg : string) :
  write_error w save_path = Some msg ->
  status (main w) = 1%Z /\
  status (main w) <> 0%Z /\
  reported (main w) = Some (OSError msg) /\
  stdout (final (main w)) = [] /\
  files_written (final (main w)) = [].
Proof.
  intros H. rewrite main_run, H. cbn [status reported final].
  repeat split. discriminate.
Qed.

(** C4. If the file can be written, the run exits with status 0 and
    its effects are, in this order, the write of the image to the
    output path and one printed line; that line is the fixed prefix
    followed by the very path given to the save call, and the image
    written holds everything that was drawn. *)
Theorem C4_confirmation_after_save (w : World) :
  write_error w save_path = None ->
  status (main w) = 0%Z /\
  exists (img : SavedImage) (line : string),
    effects (final (main w)) = [Wrote save_path img; Printed line] /\
    stdout (final (main w)) = [line] /\
    line = "Directory structure diagram saved to: " ++ save_path /\
    contains save_path line = true /\
    save_path = "C:\code\AIGovNav\Reference\directory_structure.png" /\
    artists (axes (img_figure img)) = drawn (final (main w)).
Proof.
  intros H. rewrite main_run, H. cbn [status final effects].
  split; [reflexivity|]. do 2 eexists.
  split; [reflexivity|]. split; [reflexivity|]. split; [reflexivity|].
  split; [vm_compute; reflexivity|]. split; reflexivity.
Qed.

(** C5. The run consults nothing of the world but the outcome of its
    one write: any two runs leave the same axes, with the same artists
    in the same order, and two runs whose write has the same outcome
    agree on exit status, reported error, globals, figure and effects,
    whatever the arguments, environment, clock and entropy. *)
Theorem C5_runs_are_deterministic (w1 w2 : World) :
  ax_of (final (main w1)) = ax_of (final (main w2)) /\
  drawn (final (main w1)) = drawn (final (main w2)) /\
  (write_error w1 save_path = write_error w2 save_path ->
   same_run (main w1) (main w2)).
Proof.
  split; [rewrite !final_axes; reflexivity|].
  split; [unfold drawn; rewrite !final_axes; reflexivity|].
  intros H. rewrite !main_run, H.
  destruct (write_error w2 save_path); repeat split.
Qed.

(** C1 (the code departs from it). The limits of the axes are
    [0, 100] by [0, 120], yet the patch of the key-features box is
    anchored at [(5, -6)] with height 6, below the lower limit; seven
    artists in all (that patch, its empty label, and the five
    key-features texts) lie outside the limits, and every other artist
    lies inside. *)
Theorem C1_features_box_below_canvas (w : World) :
  exists (ax : Axes) (b : Patch),
    ax_of (final (main w)) = Some ax /\
    xlim ax = (0, 100) /\
    ylim ax = (0, 120) /\
    In (APatch b) (artists ax) /\
    patch_xy b = (5, -6) /\
    patch_width b = 88 /\
    patch_height b = 6 /\
    artist_in_extent ax (APatch b) = false /\
    all_in_extent ax = false /\
    length (filter (fun a => artist_in_extent ax a = false) (artists ax)) = 7%nat /\
    length (artists ax) = 139%nat.
Proof.
  exists (axes laid_out).
  exists (FancyBboxPatch (5, -6) 88 6 "round,pad=0.1" (mkProps "#F5A623" "black" 0.3 1.5)).
  split; [apply final_axes|].
  vm_compute. repeat split. do 127 right. left. reflexivity.
Qed.

(** ** The lines of a box *)

(** The [i]-th text one call adds, field by field: its string is the
    [i]-th line of the label, and its anchor is what lines 44 to 49 of
    the source compute, in binary64. *)
Lemma draw_box_text_at (x y width height : float) (text color : string) (fontsize : Z)
    (style : string) (p : Proc) (g : Figure) (i : nat) (t : Text) :
  figure p = Some g ->
  texts_of (added (draw_box x y width height text color fontsize style) p) !! i = Some t ->
  split LF text !! i = Some (t_s t) /\
  t_x t = x + width / 2 /\
  t_y t = y + height
          - float_of_int (Z.of_nat i + 1) * (height / float_of_int (len (split LF text) + 1)) /\
  t_ha t = center /\
  t_va t = vcenter /\
  t_fontweight t = (if (Z.of_nat i =? 0)%Z then bold else normal) /\
  t_fontsize t = Z.max 1 (if (Z.of_nat i =? 0)%Z then fontsize else fontsize - 1).
Proof.
  intros Hg Ht. rewrite (draw_box_texts _ _ _ _ _ _ _ _ _ _ _ Hg) in Ht.
  destruct (split LF text !! i) as [line|]; [|discriminate].
  injection Ht as <-. repeat split.
Qed.

Lemma centred_run_texts {A : Type} (mk : A -> Text) (l : list A) :
  (forall a, t_va (mk a) = vcenter) ->
  centred_run (map (fun a => AText (mk a)) l) = map mk l.
Proof.
  intros Hva. induction l as [|a l IH]; [reflexivity|].
  cbn [map centred_run]. rewrite Hva, IH. reflexivity.
Qed.

Lemma boxes_of_texts {A : Type} (mk : A -> Text) (l : list A) :
  boxes_of (map (fun a => AText (mk a)) l) = [].
Proof. induction l as [|a l IH]; [reflexivity|exact IH]. Qed.

(** What one call adds is one box: its patch with all its texts. *)
Lemma boxes_of_draw_box (x y width height : float) (text color : string) (fontsize : Z)
    (style : string) (p : Proc) (g : Figure) :
  figure p = Some g ->
  exists b : Patch,
    boxes_of (added (draw_box x y width height text color fontsize style) p)
    = [(b, texts_of (added (draw_box x y width height text color fontsize style) p))] /\
    patch_xy b = (x, y) /\ patch_width b = width /\ patch_height b = height.
Proof.
  intros Hg.
  rewrite (added_paint _ _ _ _ Hg (draw_box_run x y width height text color fontsize style p g Hg)).
  rewrite texts_of_box. cbn [boxes_of].
  rewrite centred_run_texts by reflexivity. rewrite boxes_of_texts.
  eexists. split; [reflexivity|]. destruct (String.eqb style "round"); repeat split.
Qed.

(** The boxes of the drawing a run leaves. *)
Lemma final_boxes (w : World) :
  boxes_of (drawn (final (main w))) = boxes_of (artists (axes laid_out)).
Proof. unfold drawn. rewrite final_axes. reflexivity. Qed.

(** ** Claims about the lines of a box *)

(** C6 as stated fails in the arithmetic of the code: at the call of
    line 61 (14 lines in a box of height 25 at [y = 72]) the first line
    is not at [72 + 25 - 25/15], a number no double equals, and the gap
    between the first two lines differs from the gap between the next
    two. *)
Lemma C6_spacing_not_exact_in_binary64 :
  ~ (forall (i : nat) (t t' : Text),
       texts_of (added (draw_box 5 72 28 25 label_src "#4A90E2" 11 "round") blank) !! i
       = Some t ->
       texts_of (added (draw_box 5 72 28 25 label_src "#4A90E2" 11 "round") blank) !! S i
       = Some t' ->
       exists q q' : Q,
         exact (t_y t) = Some q /\ exact (t_y t') = Some q' /\
         (q == ideal_line 72 25 14 i)%Q /\ (q - q' == 25 / (14 + 1))%Q) /\
  ~ (forall (i : nat) (t t' t'' : Text),
       texts_of (added (draw_box 5 72 28 25 label_src "#4A90E2" 11 "round") blank) !! i
       = Some t ->
       texts_of (added (draw_box 5 72 28 25 label_src "#4A90E2" 11 "round") blank) !! S i
       = Some t' ->
       texts_of (added (draw_box 5 72 28 25 label_src "#4A90E2" 11 "round") blank) !! S (S i)
       = Some t'' ->
       t_y t - t_y t' = t_y t' - t_y t'').
Proof.
  assert (E0 : texts_of (added (draw_box 5 72 28 25 label_src "#4A90E2" 11 "round") blank)
                 !! 0%nat
               = Some (mkText 19 95.333333333333329 "📁 src/" 11 bold center vcenter
                         upright "black"))
    by (vm_compute; reflexivity).
  assert (E1 : texts_of (added (draw_box 5 72 28 25 label_src "#4A90E2" 11 "round") blank)
                 !! 1%nat
               = Some (mkText 19 93.666666666666671 "" 10 normal center vcenter
                         upright "black"))
    by (vm_compute; reflexivity).
  assert (E2 : texts_of (added (draw_box 5 72 28 25 label_src "#4A90E2" 11 "round") blank)
                 !! 2%nat
               = Some (mkText 19 92 "backend/" 10 normal center vcenter upright "black"))
    by (vm_compute; reflexivity).
  assert (Hex : exact 95.333333333333329 = Some (6708486944937301 # 70368744177664)%Q)
    by (vm_compute; reflexivity).
  assert (Hoff : Qeq_bool (6708486944937301 # 70368744177664) (ideal_line 72 25 14 0) = false)
    by (vm_compute; reflexivity).
  assert (Hgap : 95.333333333333329 - 93.666666666666671 <> 93.666666666666671 - 92)
    by (vm_compute; discriminate).
  split.
  - intros H. destruct (H 0%nat _ _ E0 E1) as (q & q' & Eq & _ & Hq & _).
    cbn [t_y] in Eq. rewrite Hex in Eq. injection Eq as <-.
    apply Qeq_bool_iff in Hq. congruence.
  - intros H. specialize (H 0%nat _ _ _ E0 E1 E2). cbn [t_y] in H. exact (Hgap H).
Qed.

(** C6, amended. For every [draw_box] call made once the axes exist,
    there is one text per line of the label, in order; line [i]
    (counted from 0, top to bottom) is centred, across and down, on an
    anchor whose height is the binary64 value of
    [y + height - (i + 1) * line_height], where [line_height] is the
    binary64 quotient [height / (n + 1)].  Spacing is therefore even
    up to rounding only: in the drawing every run leaves, each of the
    thirteen boxes has its lines within [2^-46] of the exact positions
    [y + height - (i + 1) * height / (n + 1)], and consecutive lines
    within [2^-46] of [height / (n + 1)] apart. *)
Theorem C6_lines_spaced_in_binary64 (x y width height : float) (text color : string)
    (fontsize : Z) (style : string) (p : Proc) (g : Figure) :
  figure p = Some g ->
  let ts := texts_of (added (draw_box x y width height text color fontsize style) p) in
  let lines := split LF text in
  length ts = length lines /\
  (forall (i : nat) (t : Text), ts !! i = Some t ->
     lines !! i = Some (t_s t) /\
     t_va t = vcenter /\ t_ha t = center /\
     t_y t = y + height
             - float_of_int (Z.of_nat i + 1) * (height / float_of_int (len lines + 1))) /\
  (exists b : Patch,
     boxes_of (added (draw_box x y width height text color fontsize style) p) = [(b, ts)] /\
     patch_xy b = (x, y) /\ patch_height b = height) /\
  (forall w : World,
     length (boxes_of (drawn (final (main w)))) = 13%nat /\
     forallb (fun bt => evenly_within (1 # 2 ^ 46) (fst bt) (snd bt))
       (boxes_of (drawn (final (main w)))) = true).
Proof.
  intros Hg ts lines.
  split; [apply (draw_box_texts_length _ _ _ _ _ _ _ _ _ _ Hg)|].
  split.
  - intros i t Ht.
    destruct (draw_box_text_at _ _ _ _ _ _ _ _ _ _ _ _ Hg Ht)
      as (Hs & _ & Hy & Hha & Hva & _).
    repeat split; assumption.
  - split.
    + destruct (boxes_of_draw_box x y width height text color fontsize style p g Hg)
        as (b & Hb & Hxy & _ & Hh).
      exists b. repeat split; assumption.
    + intros w. rewrite final_boxes. vm_compute. split; reflexivity.
Qed.



(** C10 as stated fails in the arithmetic of the code: for a one-line
    label in a box of height 0.2 at [y = 0.1] the text is anchored at
    0.20000000000000004, one double above the midpoint
    [0.1 + 0.2 / 2]. *)
Lemma C10_midpoint_rounds_in_binary64 :
  exists (b : Patch) (t : Text),
    added (draw_box 0 0.1 1 0.2 "x" "red" 10 "round") blank = [APatch b; AText t] /\
    t_y t = 0.20000000000000004 /\
    t_y t <> 0.1 + 0.2 / 2 /\
    on_midline b t = false.
Proof.
  exists (FancyBboxPatch (0, 0.1) 1 0.2 "round,pad=0.1" (mkProps "red" "black" 0.3 1.5)).
  exists (mkText 0.5 0.20000000000000004 "x" 10 bold center vcenter upright "black").
  split; [vm_compute; reflexivity|]. split; [reflexivity|].
  split; [vm_compute; discriminate|vm_compute; reflexivity].
Qed.

(** C10, amended. A [draw_box] call made once the axes exist with the
    empty string as text still adds exactly one text, an empty one;
    and any text without a newline is added as a single bold line,
    centred across and down on an anchor whose height is the binary64
    value of [y + height - 1 * (height / 2)].  That is the midpoint
    [y + height / 2] of the box wherever the arithmetic is exact, as
    it is at the four one-line boxes of the drawing every run leaves:
    the root label and the three boxes with an empty text. *)
Theorem C10_text_without_newline (x y width height : float) (text color : string)
    (fontsize : Z) (style : string) (p : Proc) (g : Figure) :
  figure p = Some g ->
  (exists t : Text,
     texts_of (added (draw_box x y width height "" color fontsize style) p) = [t] /\
     t_s t = "") /\
  (mentions LF text = false ->
   exists t : Text,
     texts_of (added (draw_box x y width height text color fontsize style) p) = [t] /\
     t_s t = text /\
     t_fontweight t = bold /\
     t_fontsize t = Z.max 1 fontsize /\
     t_va t = vcenter /\ t_ha t = center /\
     t_y t = y + height - 1 * (height / 2)) /\
  (forall w : World,
     let one_line := filter (fun bt => length (snd bt) = 1%nat)
                       (boxes_of (drawn (final (main w)))) in
     length one_line = 4%nat /\
     map (fun bt => t_s <$> snd bt) one_line = [[label_root]; [""]; [""]; [""]] /\
     forallb (fun bt => forallb (on_midline (fst bt)) (snd bt)) one_line = true).
Proof.
  intros Hg. split; [|split].
  - rewrite (added_paint _ _ _ _ Hg (draw_box_run x y width height "" color fontsize style p g Hg)).
    rewrite texts_of_box. cbn [map enumerate_from split]. eexists. split; reflexivity.
  - intros Hnl.
    rewrite (added_paint _ _ _ _ Hg (draw_box_run x y width height text color fontsize style p g Hg)).
    rewrite texts_of_box, (split_without_sep _ _ Hnl).
    cbn [map enumerate_from fst snd]. eexists. split; [reflexivity|].
    repeat split.
  - intros w one_line. subst one_line. rewrite final_boxes. vm_compute. repeat split.
Qed.

(** ** The palette is bound once and then only read *)

Section KeepsPalette.

Context {A B : Type}.

Lemma keeps_ret (a : A) : keeps_palette (mret a : M A).
Proof. intros p. reflexivity. Qed.

Lemma keeps_raise (e : Exn) : keeps_palette (raise e : M A).
Proof. intros p. reflexivity. Qed.

Lemma keeps_bind (m : M A) (f : A -> M B) :
  keeps_palette m -> (forall a, keeps_palette (f a)) -> keeps_palette (m ≫= f).
Proof.
  intros Hm Hf p. unfold mbind, M_bind. specialize (Hm p).
  destruct (m p) as [[a|e] p']; simpl in *; [rewrite Hf|]; exact Hm.
Qed.

Lemma keeps_for_enumerate (body : Z -> A -> M unit) (l : list A) (i : Z) :
  (forall j a, keeps_palette (body j a)) -> keeps_palette (for_enumerate i l body).
Proof.
  intros Hb. revert i. induction l as [|a l IH]; intros i; simpl.
  - intros p. reflexivity.
  - intros p. unfold mbind, M_bind. specialize (Hb i a p).
    destruct (body i a p) as [[[]|e] p']; simpl in *; [rewrite IH|]; exact Hb.
Qed.

End KeepsPalette.

Lemma keeps_num (name : string) : keeps_palette (num name).
Proof. intros p. unfold num. destruct (globals p !! name) as [[q|d]|]; reflexivity. Qed.

Lemma keeps_subscript (name key : string) : keeps_palette (subscript name key).
Proof.
  intros p. unfold subscript. destruct (globals p !! name) as [[q|d]|]; try reflexivity.
  destruct (d !! key); reflexivity.
Qed.

Lemma keeps_assign (name : string) (v : Value) :
  name <> "colors" -> keeps_palette (assign name v).
Proof. intros Hne p. simpl. apply lookup_insert_ne. exact Hne. Qed.

Lemma keeps_on_ax (f : Axes -> Axes) : keeps_palette (on_ax f).
Proof. intros p. unfold on_ax. destruct (figure p); reflexivity. Qed.

Lemma keeps_subplots (size : float * float) (d : float) : keeps_palette (subplots size d).
Proof. intros p. reflexivity. Qed.

Lemma keeps_tight_layout : keeps_palette tight_layout.
Proof. intros p. reflexivity. Qed.

Lemma keeps_savefig (path : string) (d : float) (bbox fc ec : string) :
  keeps_palette (savefig path d bbox fc ec).
Proof. intros p. unfold savefig. destruct (write_error (world p) path); reflexivity. Qed.

Lemma keeps_close : keeps_palette close.
Proof. intros p. reflexivity. Qed.

Lemma keeps_print (line : string) : keeps_palette (print line).
Proof. intros p. reflexivity. Qed.

Lemma keeps_draw_box (x y width height : float) (text color : string) (fontsize : Z)
    (style : string) :
  keeps_palette (draw_box x y width height text color fontsize style).
Proof.
  unfold draw_box, ax_add_patch, ax_text, add_artist. cbv zeta.
  apply keeps_bind; [apply keeps_on_ax|]. intros ?.
  apply keeps_for_enumerate. intros j line. apply keeps_on_ax.
Qed.

Lemma keeps_minus (e : M float) (d : float) : keeps_palette e -> keeps_palette (e -: d).
Proof. intros He. apply keeps_bind; [exact He|]. intros v. apply keeps_ret. Qed.

Lemma keeps_plus (e : M float) (d : float) : keeps_palette e -> keeps_palette (e +: d).
Proof. intros He. apply keeps_bind; [exact He|]. intros v. apply keeps_ret. Qed.

Lemma keeps_assign_num (name : string) (e : M float) :
  name <> "colors" -> keeps_palette e -> keeps_palette (assign_num name e).
Proof.
  intros Hne He. apply keeps_bind; [exact He|]. intros v. apply keeps_assign. exact Hne.
Qed.

Lemma keeps_call_draw_box (x : float) (y : M float) (width height : float) (text : string)
    (color : M string) (fontsize : Z) :
  keeps_palette y -> keeps_palette color ->
  keeps_palette (call_draw_box x y width height text color fontsize).
Proof.
  intros Hy Hc. apply keeps_bind; [exact Hy|]. intros yv.
  apply keeps_bind; [exact Hc|]. intros c. apply keeps_draw_box.
Qed.

Lemma keeps_call_ax_text (x : float) (y : M float) (s : string) (kws : list TextKw) :
  keeps_palette y -> keeps_palette (call_ax_text x y s kws).
Proof. intros Hy. apply keeps_bind; [exact Hy|]. intros yv. apply keeps_on_ax. Qed.

Lemma keeps_call_ax_plot (x1 x2 : float) (y1 y2 : M float) :
  keeps_palette y1 -> keeps_palette y2 -> keeps_palette (call_ax_plot x1 x2 y1 y2).
Proof.
  intros H1 H2. apply keeps_bind; [exact H1|]. intros a.
  apply keeps_bind; [exact H2|]. intros b. apply keeps_on_ax.
Qed.

(** One statement, or one expression, of the module body at a time,
    by its shape. *)
Ltac keeps :=
  lazymatch goal with
  | |- keeps_palette (call_draw_box _ _ _ _ _ _ _) => apply keeps_call_draw_box; keeps
  | |- keeps_palette (call_ax_text _ _ _ _) => apply keeps_call_ax_text; keeps
  | |- keeps_palette (call_ax_plot _ _ _ _) => apply keeps_call_ax_plot; keeps
  | |- keeps_palette (assign_num _ _) => apply keeps_assign_num; [discriminate|keeps]
  | |- keeps_palette (_ -: _) => apply keeps_minus; keeps
  | |- keeps_palette (_ +: _) => apply keeps_plus; keeps
  | |- keeps_palette (lit _) => apply keeps_ret
  | |- keeps_palette (colors _) => apply keeps_subscript
  | |- keeps_palette y_pos => apply keeps_num
  | |- keeps_palette stats_y => apply keeps_num
  | |- keeps_palette tech_y => apply keeps_num
  | |- keeps_palette features_y => apply keeps_num
  | |- keeps_palette (ax_text _ _ _ _) => apply keeps_on_ax
  | |- keeps_palette (ax_set_xlim _ _) => apply keeps_on_ax
  | |- keeps_palette (ax_set_ylim _ _) => apply keeps_on_ax
  | |- keeps_palette ax_axis_off => apply keeps_on_ax
  | |- keeps_palette (subplots _ _) => apply keeps_subplots
  | |- keeps_palette tight_layout => apply keeps_tight_layout
  | |- keeps_palette (savefig _ _ _ _ _) => apply keeps_savefig
  | |- keeps_palette close => apply keeps_close
  | |- keeps_palette (print _) => apply keeps_print
  end.

Lemma keeps_before_palette : Forall keeps_palette before_palette.
Proof.
  unfold before_palette, figure_setup, title. cbn [app].
  repeat (apply List.Forall_cons; [keeps|]). apply List.Forall_nil.
Qed.

Lemma keeps_after_palette : Forall keeps_palette (after_palette ++ output).
Proof.
  unfold after_palette, main_sections, statistics_box, tech_stack, key_features,
    connectors, footer, output. cbn [app].
  repeat (apply List.Forall_cons; [keeps|]). apply List.Forall_nil.
Qed.

Lemma keeps_exec (stmts : list (M unit)) :
  Forall keeps_palette stmts -> keeps_palette (exec stmts).
Proof.
  induction 1 as [|s stmts Hs _ IH]; simpl; [apply keeps_ret|].
  apply keeps_bind; [exact Hs|intros ?; exact IH].
Qed.

Lemma script_shape : script = (before_palette ++ color_scheme :: (after_palette ++ output))%list.
Proof. unfold script, drawing. rewrite <- !app_assoc. reflexivity. Qed.

Lemma before_palette_run (w : World) :
  exists p : Proc, exec before_palette (init w) = (Val tt, p).
Proof. vm_compute. eexists. reflexivity. Qed.

Lemma palette_unbound_early (n : nat) (w : World) :
  (n <= 6)%nat -> globals (after n w) !! "colors" = None.
Proof.
  intros Hn. unfold after. rewrite script_shape.
  rewrite take_app_le by (exact Hn).
  rewrite (keeps_exec _ (Forall_take _ _ _ keeps_before_palette)).
  reflexivity.
Qed.

Lemma palette_bound_late (n : nat) (w : World) :
  (6 < n)%nat -> globals (after n w) !! "colors" = Some (Dict palette).
Proof.
  intros Hn. unfold after. rewrite script_shape.
  rewrite take_app_ge by (simpl; lia).
  replace (n - length before_palette)%nat with (S (n - 7)) by (simpl; lia).
  rewrite firstn_cons, exec_app.
  destruct (before_palette_run w) as [p ->].
  cbn [exec]. unfold mbind, M_bind, color_scheme, assign.
  rewrite (keeps_exec _ (Forall_take _ _ _ keeps_after_palette)).
  cbn [globals]. apply lookup_insert_eq.
Qed.

Lemma no_patch_early (n : nat) (w : World) :
  (n <= 6)%nat -> patches_of (drawn (after n w)) = [].
Proof.
  intros Hn. do 7 (destruct n as [|n]; [vm_compute; reflexivity|]). lia.
Qed.

(** ** Claims about the palette *)

(** C9 as stated fails: on any run, the title and the subtitle have
    already been drawn when the sixth statement has finished, while the
    name [colors] is still unbound. *)
Lemma C9_title_drawn_before_palette :
  ~ (forall (w : World) (n : nat),
       drawn (after n w) <> [] -> is_Some (globals (after n w) !! "colors")).
Proof.
  intros H. specialize (H writable_world 6%nat).
  assert (Hd : drawn (after 6 writable_world) <> []) by (vm_compute; discriminate).
  destruct (H Hd) as [v Hv].
  rewrite (palette_unbound_early 6 writable_world) in Hv by lia. discriminate.
Qed.

(** C9, amended. The palette maps seven category names to colour
    strings.  The name [colors] is bound by the seventh statement of
    the module, after the title and subtitle texts and before any box
    is drawn: it is unbound up to the sixth statement, and bound to the
    palette after every later one, the last included, because every
    later statement leaves the binding as it found it. *)
Theorem C9_palette_bound_once_then_fixed (w : World) :
  size palette = 7%nat /\
  dom palette = ({["core"; "qa"; "agents"; "config"; "docs"; "db"; "test"]} : gset string) /\
  script = (before_palette ++ color_scheme :: (after_palette ++ output))%list /\
  Forall keeps_palette (after_palette ++ output) /\
  (forall n : nat, (n <= 6)%nat -> globals (after n w) !! "colors" = None) /\
  (forall n : nat, (6 < n)%nat -> globals (after n w) !! "colors" = Some (Dict palette)) /\
  (forall n : nat, patches_of (drawn (after n w)) <> [] ->
     globals (after n w) !! "colors" = Some (Dict palette)) /\
  globals (final (main w)) !! "colors" = Some (Dict palette).
Proof.
  split; [vm_compute; reflexivity|].
  split; [vm_compute; reflexivity|].
  split; [exact script_shape|].
  split; [exact keeps_after_palette|].
  split; [intros n; apply palette_unbound_early|].
  split; [intros n; apply palette_bound_late|].
  split.
  - intros n Hp. destruct (le_lt_dec n 6) as [Hn|Hn].
    + contradict Hp. apply no_patch_early. exact Hn.
    + apply palette_bound_late. exact Hn.
  - pose proof (palette_bound_late (length script) w) as H.
    unfold after in H. rewrite firstn_all in H. unfold main.
    destruct (exec script (init w)) as [[[]|e] p]; apply H; vm_compute; lia.
Qed.

(** ** The claims at concrete inputs *)

Lemma C3_witness :
  write_error unwritable_world save_path = Some "No such file or directory" /\
  status (main unwritable_world) = 1%Z /\
  status (main unwritable_world) <> 0%Z /\
  reported (main unwritable_world) = Some (OSError "No such file or directory") /\
  stdout (final (main unwritable_world)) = [] /\
  files_written (final (main unwritable_world)) = [].
Proof.
  split; [reflexivity|].
  apply (C3_save_failure_is_fatal unwritable_world "No such file or directory").
  reflexivity.
Defined.

Lemma C4_witness :
  write_error busy_world save_path = None /\
  status (main busy_world) = 0%Z /\
  exists (img : SavedImage) (line : string),
    effects (final (main busy_world)) = [Wrote save_path img; Printed line] /\
    stdout (final (main busy_world)) = [line] /\
    line = "Directory structure diagram saved to: " ++ save_path /\
    contains save_path line = true /\
    save_path = "C:\code\AIGovNav\Reference\directory_structure.png" /\
    artists (axes (img_figure img)) = drawn (final (main busy_world)).
Proof.
  split; [reflexivity|].
  apply (C4_confirmation_after_save busy_world). reflexivity.
Defined.

Lemma C5_witness :
  write_error writable_world save_path = write_error busy_world save_path /\
  same_run (main writable_world) (main busy_world).
Proof.
  split; [reflexivity|].
  apply (C5_runs_are_deterministic writable_world busy_world). reflexivity.
Defined.

Lemma C6_witness :
  figure blank = Some blank_figure /\
  let ts := texts_of (added (draw_box 5 72 28 25 label_src "#4A90E2" 11 "round") blank) in
  let lines := split LF label_src in
  length ts = length lines /\
  (forall (i : nat) (t : Text), ts !! i = Some t ->
     lines !! i = Some (t_s t) /\
     t_va t = vcenter /\ t_ha t = center /\
     t_y t = 72 + 25 - float_of_int (Z.of_nat i + 1) * (25 / float_of_int (len lines + 1))) /\
  (exists b : Patch,
     boxes_of (added (draw_box 5 72 28 25 label_src "#4A90E2" 11 "round") blank) = [(b, ts)] /\
     patch_xy b = (5, 72) /\ patch_height b = 25) /\
  (forall w : World,
     length (boxes_of (drawn (final (main w)))) = 13%nat /\
     forallb (fun bt => evenly_within (1 # 2 ^ 46) (fst bt) (snd bt))
       (boxes_of (drawn (final (main w)))) = true).
Proof.
  split; [reflexivity|].
  apply (C6_lines_spaced_in_binary64 5 72 28 25 label_src "#4A90E2" 11 "round"
           blank blank_figure).
  reflexivity.
Defined.


Lemma C8_witness :
  figure blank = Some blank_figure /\
  exists b : Patch,
    patches_of (added (draw_box 35 105 30 5 label_root "#7ED321" 12 "round") blank) = [b] /\
    patch_xy b = (35, 105) /\
    patch_width b = 30 /\
    patch_height b = 5 /\
    facecolor (patch_props b) = "#7ED321" /\
    edgecolor (patch_props b) = "black" /\
    alpha (patch_props b) = 0.3 /\
    (rounded b = true <-> "round" = "round").
Proof.
  split; [reflexivity|].
  apply (C8_one_patch_per_box 35 105 30 5 label_root "#7ED321" 12 "round" blank blank_figure).
  reflexivity.
Defined.

Lemma C9_witness :
  (6 <= 6)%nat /\
  globals (after 6 unwritable_world) !! "colors" = None /\
  (6 < 7)%nat /\
  globals (after 7 unwritable_world) !! "colors" = Some (Dict palette) /\
  patches_of (drawn (after 9 unwritable_world)) <> [] /\
  globals (after 9 unwritable_world) !! "colors" = Some (Dict palette).
Proof.
  destruct (C9_palette_bound_once_then_fixed unwritable_world)
    as (_ & _ & _ & _ & Hearly & Hlate & Hpatch & _).
  assert (H66 : (6 <= 6)%nat) by lia.
  assert (H67 : (6 < 7)%nat) by lia.
  assert (H9 : patches_of (drawn (after 9 unwritable_world)) <> [])
    by (vm_compute; discriminate).
  split; [exact H66|]. split; [exact (Hearly 6%nat H66)|].
  split; [exact H67|]. split; [exact (Hlate 7%nat H67)|].
  split; [exact H9|exact (Hpatch 9%nat H9)].
Defined.

Lemma C10_witness :
  figure blank = Some blank_figure /\
  mentions LF label_root = false /\
  (exists t : Text,
     texts_of (added (draw_box 35 105 30 5 "" "#7ED321" 12 "round") blank) = [t] /\
     t_s t = "") /\
  (exists t : Text,
     texts_of (added (draw_box 35 105 30 5 label_root "#7ED321" 12 "round") blank) = [t] /\
     t_s t = label_root /\
     t_fontweight t = bold /\
     t_fontsize t = Z.max 1 12 /\
     t_va t = vcenter /\ t_ha t = center /\
     t_y t = 105 + 5 - 1 * (5 / 2)).
Proof.
  assert (Hg : figure blank = Some blank_figure) by reflexivity.
  assert (Hnl : mentions LF label_root = false) by reflexivity.
  destruct (C10_text_without_newline 35 105 30 5 label_root "#7ED321" 12 "round"
              blank blank_figure Hg) as (Hempty & Hline & _).
  split; [exact Hg|]. split; [exact Hnl|]. split; [exact Hempty|exact (Hline Hnl)].
Defined.

(** * Further properties *)

(** ** Splitting and joining *)

Lemma join_cons (sep a b : string) (l : list string) :
  join sep (a :: b :: l) = a ++ sep ++ join sep (b :: l).
Proof. reflexivity. Qed.

Lemma join_head (sep : string) (c : ascii) (piece : string) (pieces : list string) :
  join sep (String c piece :: pieces) = String c (join sep (piece :: pieces)).
Proof. destruct pieces; reflexivity. Qed.

Lemma join_split (sep : ascii) (s : string) :
  join (String sep EmptyString) (split sep s) = s.
Proof.
  induction s as [|c s IH]; [reflexivity|]. simpl split.
  pose proof (split_not_nil sep s) as Hne.
  destruct (Ascii.eqb_spec c sep) as [->|Hc].
  - destruct (split sep s) as [|piece pieces]; [congruence|].
    rewrite join_cons, IH. reflexivity.
  - destruct (split sep s) as [|piece pieces]; [congruence|].
    rewrite join_head, IH. reflexivity.
Qed.

Lemma split_length (sep : ascii) (s : string) :
  length (split sep s) = S (count sep s).
Proof.
  induction s as [|c s IH]; [reflexivity|]. simpl.
  pose proof (split_not_nil sep s) as Hne.
  destruct (Ascii.eqb c sep); simpl; [rewrite IH; reflexivity|].
  destruct (split sep s); [congruence|]. simpl in *. exact IH.
Qed.

Lemma split_pieces_clean (sep : ascii) (s : string) :
  Forall (fun piece => mentions sep piece = false) (split sep s).
Proof.
  induction s as [|c s IH]; simpl.
  - repeat constructor.
  - destruct (Ascii.eqb c sep) eqn:E.
    + apply List.Forall_cons; [reflexivity|exact IH].
    + destruct (split sep s) as [|piece pieces].
      * repeat constructor. simpl. rewrite E. reflexivity.
      * inversion IH as [|? ? Hp Hps]; subst.
        apply List.Forall_cons; [|exact Hps]. simpl. rewrite E, Hp. reflexivity.
Qed.

Lemma enumerate_from_snd {A : Type} (l : list A) (i : Z) :
  map snd (enumerate_from i l) = l.
Proof. revert i. induction l as [|a l IH]; intros i; simpl; [|rewrite IH]; reflexivity. Qed.

(** The strings of the texts one call adds are the lines of its label. *)
Lemma draw_box_strings (x y width height : float) (text color : string) (fontsize : Z)
    (style : string) (p : Proc) (g : Figure) :
  figure p = Some g ->
  map t_s (texts_of (added (draw_box x y width height text color fontsize style) p))
  = split LF text.
Proof.
  intros Hg.
  rewrite (added_paint _ _ _ _ Hg (draw_box_run x y width height text color fontsize style p g Hg)).
  rewrite texts_of_box, map_map. cbn [make_text fold_left set_kw t_s].
  apply enumerate_from_snd.
Qed.

(** X1. Joining with newlines the strings of the texts a [draw_box]
    call adds gives back the label it was called with: nothing of the
    label is dropped, repeated or reordered. *)
Theorem X1_label_round_trip (x y width height : float) (text color : string)
    (fontsize : Z) (style : string) (p : Proc) (g : Figure) :
  figure p = Some g ->
  join nl (map t_s (texts_of (added (draw_box x y width height text color fontsize style) p)))
  = text.
Proof. intros Hg. rewrite (draw_box_strings _ _ _ _ _ _ _ _ _ _ Hg). apply join_split. Qed.

(** X2. A [draw_box] call adds one text more than its label has
    newlines, after its one patch and nothing else: as many artists as
    the label has newlines, plus two. *)
Theorem X2_artists_per_call (x y width height : float) (text color : string)
    (fontsize : Z) (style : string) (p : Proc) (g : Figure) :
  figure p = Some g ->
  let new := added (draw_box x y width height text color fontsize style) p in
  length (texts_of new) = S (count LF text) /\
  length new = S (S (count LF text)) /\
  exists b : Patch, new = APatch b :: map AText (texts_of new).
Proof.
  intros Hg new. subst new.
  rewrite (added_paint _ _ _ _ Hg (draw_box_run x y width height text color fontsize style p g Hg)).
  rewrite texts_of_box. cbn [length]. rewrite !length_map, enumerate_from_length, split_length.
  split; [reflexivity|]. split; [reflexivity|].
  eexists. f_equal. rewrite map_map. reflexivity.
Qed.

(** X3. No text a [draw_box] call adds has a newline in it, and the
    number of lines the label splits into is at least one, so the
    divisor [len(lines) + 1] of the line height is at least two. *)
Theorem X3_lines_are_single (x y width height : float) (text color : string)
    (fontsize : Z) (style : string) (p : Proc) (g : Figure) :
  figure p = Some g ->
  Forall (fun t => mentions LF (t_s t) = false)
    (texts_of (added (draw_box x y width height text color fontsize style) p)) /\
  (2 <= len (split LF text) + 1)%Z.
Proof.
  intros Hg. split.
  - apply Forall_map with (f := t_s) (P := fun s => mentions LF s = false).
    rewrite (draw_box_strings _ _ _ _ _ _ _ _ _ _ Hg). apply split_pieces_clean.
  - pose proof (len_split_pos LF text). lia.
Qed.

(** ** What a call leaves alone, and how calls compose *)


(** X8. What a [draw_box] call adds depends on its arguments alone,
    not on what has been drawn before or on anything else in the
    process; so two calls in a row add what the first adds followed by
    what the second adds. *)
Theorem X8_calls_compose (x y width height : float) (text color : string) (fontsize : Z)
    (style : string) (x' y' width' height' : float) (text' color' : string) (fontsize' : Z)
    (style' : string) (p q : Proc) (g h : Figure) :
  figure p = Some g ->
  figure q = Some h ->
  added (draw_box x y width height text color fontsize style) p
  = added (draw_box x y width height text color fontsize style) q /\
  added (draw_box x y width height text color fontsize style ;;
         draw_box x' y' width' height' text' color' fontsize' style') p
  = (added (draw_box x y width height text color fontsize style) p
     ++ added (draw_box x' y' width' height' text' color' fontsize' style') p)%list.
Proof.
  intros Hg Hh.
  pose proof (draw_box_run x y width height text color fontsize style p g Hg) as Hp.
  pose proof (draw_box_run x y width height text color fontsize style q h Hh) as Hq.
  pose proof (draw_box_run x' y' width' height' text' color' fontsize' style' p g Hg) as Hp'.
  rewrite (added_paint _ _ _ _ Hg Hp), (added_paint _ _ _ _ Hh Hq), (added_paint _ _ _ _ Hg Hp').
  split; [reflexivity|].
  apply (added_paint _ _ g); [exact Hg|].
  unfold mbind, M_bind. rewrite Hp.
  match goal with |- context [paint p g ?l] =>
    destruct (figure_paint p g l) as [g1 Hg1];
    rewrite (draw_box_run x' y' width' height' text' color' fontsize' style' _ g1 Hg1);
    rewrite (paint_paint _ _ _ _ _ Hg1)
  end.
  reflexivity.
Qed.

(** ** How a run ends *)

Lemma laid_out_flags : tight laid_out = true /\ closed laid_out = false.
Proof. vm_compute. split; reflexivity. Qed.

(** X10. A run ends in one of two ways, and the write decides which:
    the exit status is 0, a line is printed and the file is recorded as
    written exactly when the write goes through; otherwise the status
    is 1 and the error reported is the operating system's.  No run
    ends with a [NameError], a [TypeError] or a [KeyError]. *)
Theorem X10_write_decides_outcome (w : World) :
  (status (main w) = 0%Z <-> write_error w save_path = None) /\
  (status (main w) = 1%Z <-> write_error w save_path <> None) /\
  (stdout (final (main w)) <> [] <-> write_error w save_path = None) /\
  (files_written (final (main w)) = [save_path] <-> write_error w save_path = None) /\
  (forall e : Exn, reported (main w) = Some e ->
     exists msg : string, e = OSError msg /\ write_error w save_path = Some msg).
Proof.
  rewrite main_run. destruct (write_error w save_path) as [msg|] eqn:E;
    cbn [status reported final stdout files_written effects flat_map app].
  - repeat split; try discriminate; try congruence.
    intros e [= <-]. exists msg. split; reflexivity.
  - repeat split; try discriminate; try congruence.
Qed.

(** X11. The figure is closed exactly when it has been saved: a run
    whose write fails ends with the figure still open.  The image that
    is written is taken after [tight_layout] and before [close], and
    holds the axes as the run leaves them. *)
Theorem X11_closed_iff_saved (w : World) :
  exists g : Figure,
    figure (final (main w)) = Some g /\
    tight g = true /\
    (closed g = true <-> write_error w save_path = None) /\
    (forall (path : string) (img : SavedImage),
       In (Wrote path img) (effects (final (main w))) ->
       path = save_path /\
       tight (img_figure img) = true /\
       closed (img_figure img) = false /\
       axes (img_figure img) = axes g).
Proof.
  destruct laid_out_flags as [Ht Hc].
  rewrite main_run. destruct (write_error w save_path) as [msg|] eqn:E;
    cbn [final figure effects]; eexists; (split; [reflexivity|]); cbn [tight closed axes].
  - split; [exact Ht|]. split.
    + rewrite Hc. split; discriminate.
    + intros path img [].
  - split; [exact Ht|]. split; [split; reflexivity|].
    intros path img [[= <- <-]|[[=]|[]]]. cbn [img_figure]. repeat split; assumption.
Qed.

(** ** What every statement after the figure setup preserves *)

Section Steps.

Context (R : Proc -> Proc -> Prop) `{!Reflexive R} `{!Transitive R}.

Lemma steps_ret {A : Type} (a : A) : steps R (mret a : M A).
Proof. intros p. reflexivity. Qed.

Lemma steps_bind {A B : Type} (m : M A) (f : A -> M B) :
  steps R m -> (forall a, steps R (f a)) -> steps R (m ≫= f).
Proof.
  intros Hm Hf p. unfold mbind, M_bind. specialize (Hm p).
  destruct (m p) as [[a|e] p']; cbn [snd] in *; [|exact Hm].
  transitivity p'; [exact Hm|apply Hf].
Qed.

Lemma steps_for_enumerate {A : Type} (body : Z -> A -> M unit) (l : list A) (i : Z) :
  (forall j a, steps R (body j a)) -> steps R (for_enumerate i l body).
Proof.
  intros Hb. revert i. induction l as [|a l IH]; intros i; cbn [for_enumerate].
  - apply steps_ret.
  - apply steps_bind; [apply Hb|intros ?; apply IH].
Qed.

Lemma steps_exec (stmts : list (M unit)) :
  Forall (steps R) stmts -> steps R (exec stmts).
Proof.
  induction 1 as [|s stmts Hs _ IH]; cbn [exec]; [apply steps_ret|].
  apply steps_bind; [exact Hs|intros ?; exact IH].
Qed.

(** Running more statements of a list only moves further along [R]. *)
Lemma exec_take_mono (stmts : list (M unit)) :
  Forall (steps R) stmts ->
  forall (n m : nat) (p : Proc), (n <= m)%nat ->
    R (snd (exec (take n stmts) p)) (snd (exec (take m stmts) p)).
Proof.
  induction 1 as [|s stmts Hs Hrest IH]; intros n m p Hnm.
  - rewrite !take_nil. reflexivity.
  - destruct n as [|n].
    + cbn [take exec]. apply (steps_exec (take m (s :: stmts))).
      apply Forall_take. apply List.Forall_cons; assumption.
    + destruct m as [|m]; [lia|]. cbn [take exec]. unfold mbind, M_bind.
      destruct (s p) as [[[]|e] p']; [apply IH; lia|reflexivity].
Qed.

End Steps.

#[local] Instance settled_refl : Reflexive settled.
Proof. intros p. split; [reflexivity|tauto]. Qed.

#[local] Instance settled_trans : Transitive settled.
Proof.
  intros p q r [Hpq Fpq] [Hqr Fqr]. split; [etransitivity; eassumption|].
  intros fr H. apply Fqr, Fpq, H.
Qed.

Lemma settled_ret {A : Type} (a : A) : steps settled (mret a : M A).
Proof. exact (steps_ret settled a). Qed.

Lemma settled_bind {A B : Type} (m : M A) (f : A -> M B) :
  steps settled m -> (forall a, steps settled (f a)) -> steps settled (m ≫= f).
Proof. exact (steps_bind settled m f). Qed.

Lemma settled_same_figure (p q : Proc) : figure q = figure p -> settled p q.
Proof.
  intros H. unfold settled, frame, drawn, ax_of. rewrite H. split; [reflexivity|tauto].
Qed.

Lemma settled_num (name : string) : steps settled (num name).
Proof. intros p. unfold num. destruct (globals p !! name) as [[q|d]|]; reflexivity. Qed.

Lemma settled_subscript (name key : string) : steps settled (subscript name key).
Proof.
  intros p. unfold subscript. destruct (globals p !! name) as [[q|d]|]; try reflexivity.
  destruct (d !! key); reflexivity.
Qed.

Lemma settled_assign (name : string) (v : Value) : steps settled (assign name v).
Proof. intros p. apply settled_same_figure. reflexivity. Qed.

Lemma settled_print (line : string) : steps settled (print line).
Proof. intros p. apply settled_same_figure. reflexivity. Qed.

Lemma settled_add_artist (a : Artist) : steps settled (add_artist a).
Proof.
  intros p. unfold add_artist, on_ax. destruct (figure p) as [g|] eqn:Hg; [|reflexivity].
  cbn [snd]. unfold settled, frame, drawn, ax_of. cbn [figure]. rewrite Hg. cbn.
  split; [apply prefix_app_r; reflexivity|tauto].
Qed.

Lemma settled_gcf (p q : Proc) (g : Figure) :
  figure q = Some g -> axes g = axes (gcf p) -> settled p q.
Proof.
  intros Hq Hax. unfold settled, frame, drawn, ax_of. rewrite Hq. cbn. rewrite Hax.
  unfold gcf. destruct (figure p) as [g0|]; cbn.
  - split; [reflexivity|tauto].
  - split; [apply prefix_nil|discriminate].
Qed.

Lemma settled_tight_layout : steps settled tight_layout.
Proof. intros p. unfold tight_layout. cbn [snd]. eapply settled_gcf; reflexivity. Qed.

Lemma settled_savefig (path : string) (d : float) (bbox fc ec : string) :
  steps settled (savefig path d bbox fc ec).
Proof.
  intros p. unfold savefig.
  destruct (write_error (world p) path); cbn [snd]; eapply settled_gcf; reflexivity.
Qed.

Lemma settled_close : steps settled close.
Proof.
  intros p. unfold close. cbn [snd]. unfold settled, frame, drawn, ax_of. cbn [figure].
  destruct (figure p) as [g|]; cbn; (split; [reflexivity|tauto]).
Qed.

Lemma settled_draw_box (x y width height : float) (text color : string) (fontsize : Z)
    (style : string) :
  steps settled (draw_box x y width height text color fontsize style).
Proof.
  unfold draw_box, ax_add_patch, ax_text. cbv zeta.
  apply settled_bind; [apply settled_add_artist|]. intros ?.
  apply (steps_for_enumerate settled). intros j line. apply settled_add_artist.
Qed.

Lemma settled_expr (e : M float) (d : float) :
  steps settled e -> steps settled (e -: d) /\ steps settled (e +: d).
Proof.
  intros He. split; (apply settled_bind; [exact He|]);
    intros v; apply settled_ret.
Qed.

(** One statement, or one expression, of the module body at a time,
    by its shape. *)
Ltac settles :=
  lazymatch goal with
  | |- steps settled (call_draw_box _ _ _ _ _ _ _) =>
      unfold call_draw_box;
      apply settled_bind; [settles|intros ?];
      apply settled_bind; [settles|intros ?]; apply settled_draw_box
  | |- steps settled (call_ax_text _ _ _ _) =>
      unfold call_ax_text;
      apply settled_bind; [settles|intros ?]; apply settled_add_artist
  | |- steps settled (call_ax_plot _ _ _ _) =>
      unfold call_ax_plot;
      apply settled_bind; [settles|intros ?];
      apply settled_bind; [settles|intros ?]; apply settled_add_artist
  | |- steps settled (assign_num _ _) =>
      unfold assign_num;
      apply settled_bind; [settles|intros ?]; apply settled_assign
  | |- steps settled (_ -: _) => apply settled_expr; settles
  | |- steps settled (_ +: _) => apply settled_expr; settles
  | |- steps settled (lit _) => apply settled_ret
  | |- steps settled (colors _) => apply settled_subscript
  | |- steps settled y_pos => apply settled_num
  | |- steps settled stats_y => apply settled_num
  | |- steps settled tech_y => apply settled_num
  | |- steps settled features_y => apply settled_num
  | |- steps settled color_scheme => apply settled_assign
  | |- steps settled (ax_text _ _ _ _) => apply settled_add_artist
  | |- steps settled tight_layout => apply settled_tight_layout
  | |- steps settled (savefig _ _ _ _ _) => apply settled_savefig
  | |- steps settled close => apply settled_close
  | |- steps settled (print _) => apply settled_print
  end.

Lemma settled_body : Forall (steps settled) body.
Proof.
  unfold body, after_palette, title, main_sections, statistics_box, tech_stack,
    key_features, connectors, footer, output. cbn [app].
  repeat (apply List.Forall_cons; [settles|]). apply List.Forall_nil.
Qed.

Lemma script_setup_body : script = (figure_setup ++ body)%list.
Proof.
  unfold script, drawing, before_palette, body. rewrite <- !app_assoc. reflexivity.
Qed.

(** After the four setup statements the process has the blank figure
    and nothing else, whatever the world. *)
Lemma setup_run (w : World) :
  exec figure_setup (init w) = (Val tt, mkProc w ∅ (Some blank_figure) []).
Proof. vm_compute. reflexivity. Qed.

Lemma after_setup (n : nat) (w : World) :
  (4 <= n)%nat ->
  after n w = snd (exec (take (n - 4) body) (mkProc w ∅ (Some blank_figure) [])).
Proof.
  intros Hn. unfold after. rewrite script_setup_body.
  rewrite take_app_ge by (simpl; lia). rewrite exec_app, setup_run. reflexivity.
Qed.

Lemma nothing_drawn_in_setup (n : nat) (w : World) :
  (n < 4)%nat -> drawn (after n w) = [].
Proof. intros Hn. do 4 (destruct n as [|n]; [vm_compute; reflexivity|]). lia. Qed.

(** X12. Along a run, what has been drawn only grows: at any point
    everything drawn at an earlier point is still there, first and in
    the same order.  No statement of the module removes, replaces or
    reorders an artist, whatever the world and whether or not the run
    ends early. *)
Theorem X12_drawing_only_grows (w : World) (n m : nat) :
  (n <= m)%nat -> drawn (after n w) `prefix_of` drawn (after m w).
Proof.
  intros Hnm. destruct (le_lt_dec 4 n) as [Hn|Hn].
  - rewrite !after_setup by lia.
    apply (exec_take_mono settled body settled_body (n - 4) (m - 4)). lia.
  - rewrite (nothing_drawn_in_setup n w Hn). apply prefix_nil.
Qed.

(** X13. Once the figure is set up (four statements), the frame of the
    axes never changes again: at every later point of every run the
    limits are [0, 100] by [0, 120] and the axis decorations are off. *)
Theorem X13_limits_fixed_after_setup (w : World) (n : nat) :
  (4 <= n)%nat ->
  exists ax : Axes,
    ax_of (after n w) = Some ax /\
    xlim ax = (0, 100) /\ ylim ax = (0, 120) /\ axison ax = false.
Proof.
  intros Hn. rewrite (after_setup n w Hn).
  destruct (exec_take_mono settled body settled_body 0 (n - 4)
              (mkProc w ∅ (Some blank_figure) [])) as [_ Hframe]; [lia|].
  specialize (Hframe _ eq_refl). unfold frame in Hframe.
  destruct (ax_of (snd (exec (take (n - 4) body) (mkProc w ∅ (Some blank_figure) []))))
    as [ax|]; [|discriminate].
  injection Hframe as Hx Hy Hon. exists ax. repeat split; assumption.
Qed.

(** ** The further properties at concrete inputs *)

Lemma X1_witness :
  figure blank = Some blank_figure /\
  join nl (map t_s (texts_of (added (draw_box 5 72 28 25 label_src "#4A90E2" 11 "round") blank)))
  = label_src.
Proof.
  split; [reflexivity|].
  apply (X1_label_round_trip 5 72 28 25 label_src "#4A90E2" 11 "round" blank blank_figure).
  reflexivity.
Defined.

Lemma X2_witness :
  figure blank = Some blank_figure /\
  let new := added (draw_box 5 72 28 25 label_src "#4A90E2" 11 "round") blank in
  length (texts_of new) = S (count LF label_src) /\
  length new = S (S (count LF label_src)) /\
  exists b : Patch, new = APatch b :: map AText (texts_of new).
Proof.
  split; [reflexivity|].
  apply (X2_artists_per_call 5 72 28 25 label_src "#4A90E2" 11 "round" blank blank_figure).
  reflexivity.
Defined.

Lemma X3_witness :
  figure blank = Some blank_figure /\
  Forall (fun t => mentions LF (t_s t) = false)
    (texts_of (added (draw_box 5 72 28 25 label_src "#4A90E2" 11 "round") blank)) /\
  (2 <= len (split LF label_src) + 1)%Z.
Proof.
  split; [reflexivity|].
  apply (X3_lines_are_single 5 72 28 25 label_src "#4A90E2" 11 "round" blank blank_figure).
  reflexivity.
Defined.

Lemma X8_witness :
  figure blank = Some blank_figure /\
  figure painted = Some (gcf painted) /\
  added (draw_box 35 105 30 5 label_root "#7ED321" 12 "round") blank
  = added (draw_box 35 105 30 5 label_root "#7ED321" 12 "round") painted /\
  added (draw_box 35 105 30 5 label_root "#7ED321" 12 "round" ;;
         draw_box 5 72 28 25 label_src "#4A90E2" 11 "square") blank
  = (added (draw_box 35 105 30 5 label_root "#7ED321" 12 "round") blank
     ++ added (draw_box 5 72 28 25 label_src "#4A90E2" 11 "square") blank)%list.
Proof.
  assert (Hg : figure blank = Some blank_figure) by reflexivity.
  assert (Hh : figure painted = Some (gcf painted)) by (vm_compute; reflexivity).
  split; [exact Hg|]. split; [exact Hh|].
  exact (X8_calls_compose 35 105 30 5 label_root "#7ED321" 12 "round"
           5 72 28 25 label_src "#4A90E2" 11 "square" blank painted blank_figure
           (gcf painted) Hg Hh).
Defined.

Lemma X10_witness :
  write_error unwritable_world save_path <> None /\
  status (main unwritable_world) = 1%Z /\
  write_error busy_world save_path = None /\
  status (main busy_world) = 0%Z /\
  stdout (final (main busy_world)) <> [] /\
  files_written (final (main busy_world)) = [save_path].
Proof.
  assert (Hbad : write_error unwritable_world save_path <> None) by discriminate.
  assert (Hok : write_error busy_world save_path = None) by reflexivity.
  destruct (X10_write_decides_outcome unwritable_world) as (_ & [_ H1] & _).
  destruct (X10_write_decides_outcome busy_world) as ([_ H0] & _ & [_ Hout] & [_ Hfile] & _).
  split; [exact Hbad|]. split; [exact (H1 Hbad)|]. split; [exact Hok|].
  split; [exact (H0 Hok)|]. split; [exact (Hout Hok)|exact (Hfile Hok)].
Defined.

Lemma X11_witness :
  write_error busy_world save_path = None /\
  exists g : Figure, figure (final (main busy_world)) = Some g /\ closed g = true.
Proof.
  assert (Hok : write_error busy_world save_path = None) by reflexivity.
  destruct (X11_closed_iff_saved busy_world) as (g & Hg & _ & [_ Hc] & _).
  split; [exact Hok|]. exists g. split; [exact Hg|exact (Hc Hok)].
Defined.

Lemma X12_witness :
  (9 <= 200)%nat /\
  drawn (after 9 unwritable_world) `prefix_of` drawn (after 200 unwritable_world).
Proof.
  assert (H : (9 <= 200)%nat) by lia.
  split; [exact H|exact (X12_drawing_only_grows unwritable_world 9 200 H)].
Defined.

Lemma X13_witness :
  (4 <= 150)%nat /\
  exists ax : Axes,
    ax_of (after 150 unwritable_world) = Some ax /\
    xlim ax = (0, 100) /\ ylim ax = (0, 120) /\ axison ax = false.
Proof.
  assert (H : (4 <= 150)%nat) by lia.
  split; [exact H|exact (X13_limits_fixed_after_setup unwritable_world 150 H)].
Defined.
